(** * GoogleBooksAssistant: a shallow embedding of [main.py]

    The assistant has three operations, each a method of the class
    [GoogleBooksAssistant]:

    - [search_books]            one GET to the book-search service, mapped to
                                a list of book dictionaries;
    - [analyze_books]           a prompt built from book dictionaries and a
                                question, sent to the text-generation service;
    - [recommend_similar_books] one lookup by title, then one search per
                                category of the book found.

    Python values are embedded as the inductive [pyval] (what [json.loads]
    can produce), Python text as a list of Unicode code points, exceptions as
    an error result, and the two services and the logger as an explicit state
    with a trace of the effects performed. *)

From Stdlib Require Import List ZArith NArith String Ascii Floats Bool Lia.
From Stdlib Require Import DecimalString.
Import ListNotations.

Set Warnings "-register-all,-inexact-float".

Local Open Scope Z_scope.

(** ** Text *)

(** A Python [str] is a sequence of Unicode code points. *)
Definition str : Type := list N.

(** A literal of the source, all of whose characters are ASCII. *)
Definition lit (s : string) : str :=
  map N_of_ascii (list_ascii_of_string s).

Arguments lit : simpl never.

(** The line feed, written [\n] in the source. *)
Definition NL : str := [10%N].

Definition str_eq_dec : forall a b : str, {a = b} + {a <> b} :=
  list_eq_dec N.eq_dec.

Definition str_eqb (a b : str) : bool :=
  if str_eq_dec a b then true else false.

(** [sep.join(parts)] on a list of texts. *)
Fixpoint join (sep : str) (parts : list str) : str :=
  match parts with
  | [] => []
  | [p] => p
  | p :: rest => p ++ sep ++ join sep rest
  end.

(** [str(n)] for an integer. *)
Definition decimal (z : Z) : str :=
  lit (NilZero.string_of_int (Z.to_int z)).

(** The code points [str.strip()] removes: those for which [str.isspace]
    holds. *)
Definition isspace (c : N) : bool :=
  ((9 <=? c) && (c <=? 13) || (28 <=? c) && (c <=? 32)
   || (c =? 133) || (c =? 160) || (c =? 5760)
   || (8192 <=? c) && (c <=? 8202)
   || (c =? 8232) || (c =? 8233) || (c =? 8239) || (c =? 8287)
   || (c =? 12288))%N.

Fixpoint lstrip (s : str) : str :=
  match s with
  | [] => []
  | c :: rest => if isspace c then lstrip rest else s
  end.

Definition rstrip (s : str) : str := rev (lstrip (rev s)).

(** [s.strip()] *)
Definition strip (s : str) : str := rstrip (lstrip s).

(** ** Values *)

(** The values [response.json()] can return, which are also the values the
    fields of a book dictionary hold. A [dict] keeps its insertion order. *)
Inductive pyval : Type :=
  | VNone
  | VBool (b : bool)
  | VInt (z : Z)
  | VFloat (f : float)
  | VStr (s : str)
  | VList (l : list pyval)
  | VDict (d : list (str * pyval)).

Definition type_name (v : pyval) : str :=
  match v with
  | VNone => lit "NoneType"
  | VBool _ => lit "bool"
  | VInt _ => lit "int"
  | VFloat _ => lit "float"
  | VStr _ => lit "str"
  | VList _ => lit "list"
  | VDict _ => lit "dict"
  end.

Fixpoint dict_lookup (key : str) (d : list (str * pyval)) : option pyval :=
  match d with
  | [] => None
  | (k, v) :: rest => if str_eqb k key then Some v else dict_lookup key rest
  end.

(** [v != s] where [s] is a text: a value that is not a text differs from
    every text. *)
Definition py_ne (v : pyval) (s : str) : bool :=
  match v with
  | VStr t => negb (str_eqb t s)
  | _ => true
  end.

(** ** Exceptions *)

Inductive transport_error := ConnectionError | Timeout | TooManyRedirects.

(** The exception classes the operations can meet. All derive from
    [Exception]; the first three derive from
    [requests.exceptions.RequestException] (the decoding error of
    [response.json()] does since requests 2.27). The last three stand for
    what a library call can raise besides: [requests.get] on a query it
    cannot encode, [response.json()] on a body nested too deeply, and any
    other class, given by its name. *)
Inductive exn_class :=
  | Transport (t : transport_error)
  | HTTPError
  | JSONDecodeError
  | AttributeError
  | TypeError
  | KeyError
  | IndexError
  | ServiceError
  | UnicodeEncodeError
  | RecursionError
  | OtherException (name : str).

(** An exception, with the text [str(e)] gives. *)
Record exn := { exn_class_of : exn_class; exn_str : str }.

(** [isinstance(e, requests.exceptions.RequestException)] *)
Definition RequestException (e : exn) : bool :=
  match exn_class_of e with
  | Transport _ | HTTPError | JSONDecodeError => true
  | _ => false
  end.

(** [isinstance(e, Exception)] *)
Definition Exception (e : exn) : bool := true.

Inductive result (A : Type) : Type :=
  | Ok (a : A)
  | Raise (e : exn).

Arguments Ok {A} a.
Arguments Raise {A} e.

(** ** Monads *)

Class Monad (m : Type -> Type) := {
  ret : forall {A}, A -> m A;
  bind : forall {A B}, m A -> (A -> m B) -> m B
}.

Notation "x <- c ;; k" := (bind c (fun x => k))
  (at level 61, c at next level, right associativity).
Notation "c ;; k" := (bind c (fun _ => k))
  (at level 61, right associativity).

#[global] Instance result_monad : Monad result := {
  ret := fun A a => Ok a;
  bind := fun A B c k => match c with Ok a => k a | Raise e => Raise e end
}.

(** A loop [for x in xs: acc = body(acc, x)]. *)
Fixpoint for_in {m} `{Monad m} {A S : Type}
    (xs : list A) (body : S -> A -> m S) (acc : S) : m S :=
  match xs with
  | [] => ret acc
  | x :: rest => acc' <- body acc x ;; for_in rest body acc'
  end.

(** A comprehension [[f(x) for x in xs]]. *)
Definition comprehension {A B : Type} (f : A -> result B) (xs : list A)
    : result (list B) :=
  for_in (m := result) xs
    (fun (acc : list B) x => y <- f x ;; ret (acc ++ [y])) [].

(** A comprehension [[x for x in xs if p(x)]]. *)
Definition comprehension_if {A : Type} (p : A -> result bool) (xs : list A)
    : result (list A) :=
  for_in (m := result) xs
    (fun (acc : list A) x =>
       b <- p x ;; ret (if b : bool then acc ++ [x] else acc)) [].

(** ** Operations on values *)

Definition raise_of {A} (c : exn_class) (msg : str) : result A :=
  Raise {| exn_class_of := c; exn_str := msg |}.

(** [v.get(key, default)] *)
Definition py_get (v : pyval) (key : str) (default : pyval) : result pyval :=
  match v with
  | VDict d =>
      Ok (match dict_lookup key d with Some x => x | None => default end)
  | _ =>
      raise_of AttributeError
        (lit "'" ++ type_name v ++ lit "' object has no attribute 'get'")
  end.

(** [iter(v)], as a [for] loop, a comprehension or [join] consume it. *)
Definition py_iter (v : pyval) : result (list pyval) :=
  match v with
  | VList l => Ok l
  | VStr s => Ok (map (fun c => VStr [c]) s)
  | VDict d => Ok (map (fun kv => VStr (fst kv)) d)
  | _ =>
      raise_of TypeError
        (lit "'" ++ type_name v ++ lit "' object is not iterable")
  end.

(** [sep.join(v)]: every item of [v] has to be a text. *)
Definition py_join (sep : str) (v : pyval) : result str :=
  match py_iter v with
  | Raise _ => raise_of TypeError (lit "can only join an iterable")
  | Ok items =>
      parts <- for_in (m := result) items
        (fun (acc : list str) item =>
           match item with
           | VStr s => Ok (acc ++ [s])
           | _ =>
               raise_of TypeError
                 (lit "sequence item " ++ decimal (Z.of_nat (List.length acc))
                  ++ lit ": expected str instance, " ++ type_name item
                  ++ lit " found")
           end) [] ;;
      ret (join sep parts)
  end.

(** [v.strip()] *)
Definition py_strip (v : pyval) : result str :=
  match v with
  | VStr s => Ok (strip s)
  | _ =>
      raise_of AttributeError
        (lit "'" ++ type_name v ++ lit "' object has no attribute 'strip'")
  end.

(** [l[:n]] *)
Definition slice_to {A} (l : list A) (n : Z) : list A :=
  if 0 <=? n then firstn (Z.to_nat n) l
  else firstn (List.length l - Z.to_nat (- n)) l.

(** ** The services *)

(** The GET of [search_books]: the address and the three query parameters. *)
Record get_request := {
  get_url : str;
  param_q : str;
  param_key : str;
  param_maxResults : Z
}.

(** What [response.json()] makes of the body: the value of a JSON text, the
    [JSONDecodeError] of requests for a text that is not JSON, or another
    exception raised while decoding. *)
Inductive json_body :=
  | NotJson (msg : str)
  | Json (v : pyval)
  | JsonRaises (e : exn).

Record response := {
  status_code : Z;
  reason : str;
  response_url : str;
  body : json_body
}.

(** [requests.get] returns a response, raises for a transport failure, or
    raises some other exception, of whatever class. *)
Inductive get_outcome :=
  | GetRaises (t : transport_error) (msg : str)
  | GetReturns (r : response)
  | GetFails (e : exn).

(** The keyword arguments of [cohere_client.generate]. *)
Record generate_request := {
  gen_model : str;
  gen_prompt : str;
  gen_max_tokens : Z;
  gen_temperature : float;
  gen_k : Z;
  gen_stop_sequences : list str;
  gen_return_likelihoods : str
}.

(** A generation, of which the code reads [text]. *)
Record generation := { text : pyval }.

(** [generate] returns a response, of which the code reads [generations],
    or raises. *)
Inductive generate_outcome :=
  | GenerateRaises (e : exn)
  | GenerateReturns (generations : list generation).

(** The effects an operation performs, in the order it performs them. *)
Inductive event :=
  | Requested (r : get_request)
  | Generated (api_key : str) (g : generate_request)
  | LoggedError (msg : str).

(** The object the methods receive as [self]. *)
Record GoogleBooksAssistant := {
  cohere_client : str;
  google_books_api_key : str;
  google_books_base_url : str
}.

(** [__init__]; the configuration of the logger is left out. *)
Definition __init__ (cohere_api_key google_books_api_key : str)
    : GoogleBooksAssistant :=
  {| cohere_client := cohere_api_key;
     google_books_api_key := google_books_api_key;
     google_books_base_url :=
       lit "https://www.googleapis.com/books/v1/volumes" |}.

(** [response.raise_for_status()]: only the statuses 400 to 599 raise. *)
Definition raise_for_status (r : response) : result unit :=
  if (400 <=? status_code r) && (status_code r <? 500) then
    raise_of HTTPError
      (decimal (status_code r) ++ lit " Client Error: " ++ reason r
       ++ lit " for url: " ++ response_url r)
  else if (500 <=? status_code r) && (status_code r <? 600) then
    raise_of HTTPError
      (decimal (status_code r) ++ lit " Server Error: " ++ reason r
       ++ lit " for url: " ++ response_url r)
  else Ok tt.

(** [response.json()] *)
Definition response_json (r : response) : result pyval :=
  match body r with
  | Json v => Ok v
  | NotJson msg => raise_of JSONDecodeError msg
  | JsonRaises e => Raise e
  end.

(** [generations[0]] *)
Definition first_generation (generations : list generation)
    : result generation :=
  match generations with
  | g :: _ => Ok g
  | [] => raise_of IndexError (lit "list index out of range")
  end.

(** ** The data model of the book record *)

(** A book as the data model describes it: the title, the preview link and
    the page count may be absent. *)
Record BookRecord := {
  title : option str;
  authors : list str;
  description : str;
  categories : list str;
  preview_link : option str;
  page_count : option Z
}.

Definition optional {A} (f : A -> pyval) (o : option A) : pyval :=
  match o with
  | Some a => f a
  | None => VNone
  end.

(** The dictionary that holds a book of the data model. *)
Definition dict_of_record (r : BookRecord) : pyval :=
  VDict [ (lit "title", optional VStr (title r));
          (lit "authors", VList (map VStr (authors r)));
          (lit "description", VStr (description r));
          (lit "categories", VList (map VStr (categories r)));
          (lit "preview_link", optional VStr (preview_link r));
          (lit "page_count", optional VInt (page_count r)) ].

(** The four lines of a book, without the line feed that ends the fourth:
    an absent title reads [None]. *)
Definition four_lines (r : BookRecord) : str :=
  lit "Book: "
  ++ match title r with Some t => t | None => lit "None" end ++ NL
  ++ lit "Authors: " ++ join (lit ", ") (authors r) ++ NL
  ++ lit "Description: " ++ description r ++ NL
  ++ lit "Categories: " ++ join (lit ", ") (categories r).

(** The text [t] is the text [s] with the white space at its two ends
    taken away: [s] is [t] between two runs of white space, and [t] neither
    begins nor ends with white space. *)
Definition trimmed (s t : str) : Prop :=
  exists leading trailing,
    s = leading ++ t ++ trailing
    /\ forallb isspace leading = true
    /\ forallb isspace trailing = true
    /\ match t with [] => True | c :: _ => isspace c = false end
    /\ match rev t with [] => True | c :: _ => isspace c = false end.

(** The value of a field of a [volumeInfo] object, or its default. *)
Definition field_or (key : str) (default : pyval) (info : list (str * pyval))
    : pyval :=
  match dict_lookup key info with
  | Some x => x
  | None => default
  end.

(** The book of a [volumeInfo] object, with the defaults of the data model:
    absent title, preview link and page count stay absent, absent authors
    and categories are empty sequences, an absent description is the empty
    text. *)
Definition book_of_info (info : list (str * pyval)) : pyval :=
  VDict [ (lit "title", field_or (lit "title") VNone info);
          (lit "authors", field_or (lit "authors") (VList []) info);
          (lit "description", field_or (lit "description") (VStr []) info);
          (lit "categories", field_or (lit "categories") (VList []) info);
          (lit "preview_link", field_or (lit "previewLink") VNone info);
          (lit "page_count", field_or (lit "pageCount") VNone info) ].

(** An item of the response is an object whose [volumeInfo], when it has
    one, is an object. *)
Inductive item_info : pyval -> list (str * pyval) -> Prop :=
  | item_without_info item :
      dict_lookup (lit "volumeInfo") item = None ->
      item_info (VDict item) []
  | item_with_info item info :
      dict_lookup (lit "volumeInfo") item = Some (VDict info) ->
      item_info (VDict item) info.

(** The [items] array of a response object: absent, it is empty. *)
Inductive response_items (results : list (str * pyval))
    : list pyval -> Prop :=
  | items_absent :
      dict_lookup (lit "items") results = None ->
      response_items results []
  | items_present items :
      dict_lookup (lit "items") results = Some (VList items) ->
      response_items results items.

(** A book has the title [book_title]: its [title] is that very text. *)
Definition has_title (book_title : str) (book : pyval) : bool :=
  match book with
  | VDict d =>
      match dict_lookup (lit "title") d with
      | Some (VStr t) => str_eqb t book_title
      | _ => false
      end
  | _ => false
  end.

(** The books of a sequence whose title is not [book_title], in order. *)
Definition without_title (book_title : str) (books : list pyval)
    : list pyval :=
  filter (fun book => negb (has_title book_title book)) books.

(** A dictionary with the six keys [search_books] writes. *)
Definition is_book (book : pyval) : Prop :=
  exists t a d c p n,
    book = VDict [ (lit "title", t); (lit "authors", a);
                   (lit "description", d); (lit "categories", c);
                   (lit "preview_link", p); (lit "page_count", n) ].

(** The prompts of the [generate] calls of a trace. *)
Fixpoint prompts_of (tr : list event) : list str :=
  match tr with
  | [] => []
  | Generated _ g :: rest => gen_prompt g :: prompts_of rest
  | _ :: rest => prompts_of rest
  end.

(** ** A scripted world *)

(** A world that answers the calls from two scripts, whatever is asked; a
    script that has run out answers with a failure. *)
Module Script.

Record world := {
  replies : list get_outcome;
  answers : list generate_outcome
}.

Definition http (_ : get_request) (w : world) : get_outcome * world :=
  match replies w with
  | o :: rest => (o, {| replies := rest; answers := answers w |})
  | [] => (GetRaises ConnectionError (lit "connection refused"), w)
  end.

Definition cohere (_ : str) (_ : generate_request) (w : world)
    : generate_outcome * world :=
  match answers w with
  | o :: rest => (o, {| replies := replies w; answers := rest |})
  | [] =>
      (GenerateRaises
         {| exn_class_of := ServiceError; exn_str := lit "unavailable" |}, w)
  end.

Definition float_repr (_ : float) : str := lit "0.0".

Definition str_repr (s : str) : str := lit "'" ++ s ++ lit "'".

(** A reply with status 200 and the given JSON body. *)
Definition ok (v : pyval) : get_outcome :=
  GetReturns {| status_code := 200; reason := lit "OK";
                response_url := lit "https://www.googleapis.com/books/v1/volumes";
                body := Json v |}.

(** A response object with the given [volumeInfo] objects. *)
Definition volumes (infos : list (list (str * pyval))) : pyval :=
  VDict [ (lit "items",
           VList (map (fun info => VDict [(lit "volumeInfo", VDict info)])
                    infos)) ].

Definition titled (t : string) (cats : list string) : list (str * pyval) :=
  [ (lit "title", VStr (lit t));
    (lit "categories", VList (map (fun c => VStr (lit c)) cats)) ].

Definition assistant : GoogleBooksAssistant :=
  __init__ (lit "cohere-key") (lit "books-key").

Definition searching (replies : list get_outcome) : world :=
  {| replies := replies; answers := [] |}.

(** The lookup finds Dune, in one category; the search of the category
    finds Dune again, a sequel, and Dune in lower case. *)
Definition dune : world :=
  searching
    [ ok (volumes [titled "Dune" ["Fiction"]%string]);
      ok (volumes [titled "Dune" []; titled "Dune Messiah" [];
                   titled "dune" []]) ].

(** The lookup finds a book of two categories; each search of a category
    finds three books, and the two searches share a title. *)
Definition two_categories : world :=
  searching
    [ ok (volumes [titled "Dune" ["Fiction"; "Science"]%string]);
      ok (volumes [titled "Hyperion" []; titled "Foundation" [];
                   titled "Solaris" []]);
      ok (volumes [titled "Hyperion" []; titled "Cosmos" [];
                   titled "Contact" []]) ].

(** The lookup finds nothing: the response has no [items]. *)
Definition nothing_found : world := searching [ ok (VDict []) ].

(** The lookup finds a book without categories. *)
Definition no_categories : world :=
  searching [ ok (volumes [titled "Dune" []]);
              ok (volumes [titled "Hyperion" []]) ].

(** The service answers with a JSON array instead of an object. *)
Definition array_body : world := searching [ ok (VList []) ].





(** The service answers with status 200 and a body nested so deeply that
    decoding it raises a [RecursionError]. *)
Definition too_deep : world :=
  searching
    [ GetReturns {| status_code := 200; reason := lit "OK";
                    response_url := lit "https://www.googleapis.com/books/v1/volumes";
                    body := JsonRaises
                              {| exn_class_of := RecursionError;
                                 exn_str := lit "maximum recursion depth exceeded" |} |} ].

(** Two items, the second without [volumeInfo]. *)
Definition two_items : world :=
  searching
    [ ok (VDict [ (lit "items",
                   VList [ VDict [(lit "volumeInfo",
                                   VDict (titled "Dune" ["Fiction"]%string))];
                           VDict [] ]) ]) ].

(** The search of the category finds a book without title. *)
Definition untitled : world :=
  searching
    [ ok (volumes [titled "Dune" ["Fiction"]%string]);
      ok (volumes [ [(lit "authors", VList [VStr (lit "Anonymous")])] ]) ].

(** The service answers with status 300 and a JSON body. *)
Definition multiple_choices : world :=
  searching
    [ GetReturns {| status_code := 300; reason := lit "Multiple Choices";
                    response_url := lit "https://www.googleapis.com/books/v1/volumes";
                    body := Json (volumes [titled "Dune" []]) |} ].

Definition answering (answers : list generate_outcome) : world :=
  {| replies := []; answers := answers |}.

(** The generation service returns one generation, with white space at
    both ends. *)
Definition generous : world :=
  answering
    [ GenerateReturns
        [ {| text := VStr ([32%N] ++ lit "Both are classics." ++ NL) |} ] ].

(** The generation service raises. *)
Definition silent : world := answering [].

(** Two books of the data model. *)
Definition dune_record : BookRecord :=
  {| title := Some (lit "Dune");
     authors := [lit "Frank Herbert"];
     description := lit "A desert planet.";
     categories := [lit "Fiction"; lit "Science"];
     preview_link := None;
     page_count := Some 412 |}.

Definition untitled_record : BookRecord :=
  {| title := None;
     authors := [];
     description := [];
     categories := [];
     preview_link := None;
     page_count := None |}.

End Script.

Section Assistant.

(** The world outside the process: the two services answer a call and move
    on. Nothing is assumed of them. *)
Variable world : Type.
Variable http : get_request -> world -> get_outcome * world.
Variable cohere : str -> generate_request -> world -> generate_outcome * world.

(** The texts [repr] gives for a float and for a text. *)
Variable float_repr : float -> str.
Variable str_repr : str -> str.

(** [repr(v)] *)
Fixpoint py_repr (v : pyval) : str :=
  match v with
  | VNone => lit "None"
  | VBool true => lit "True"
  | VBool false => lit "False"
  | VInt z => decimal z
  | VFloat f => float_repr f
  | VStr s => str_repr s
  | VList l => lit "[" ++ join (lit ", ") (map py_repr l) ++ lit "]"
  | VDict d =>
      lit "{"
      ++ join (lit ", ")
           (map (fun kv => let '(k, x) := kv in
                           str_repr k ++ lit ": " ++ py_repr x) d)
      ++ lit "}"
  end.

(** [str(v)], which is what a replacement field of an f-string inserts. *)
Definition py_str (v : pyval) : str :=
  match v with
  | VStr s => s
  | _ => py_repr v
  end.

(** [v[key]] for a text [key]. *)
Definition py_getitem (v : pyval) (key : str) : result pyval :=
  match v with
  | VDict d =>
      match dict_lookup key d with
      | Some x => Ok x
      | None => raise_of KeyError (str_repr key)
      end
  | VList _ =>
      raise_of TypeError
        (lit "list indices must be integers or slices, not str")
  | VStr _ =>
      raise_of TypeError (lit "string indices must be integers, not 'str'")
  | _ =>
      raise_of TypeError
        (lit "'" ++ type_name v ++ lit "' object is not subscriptable")
  end.

(** *** Effects *)

Record state := { env : world; trace : list event }.

Definition M (A : Type) : Type := state -> result A * state.

#[global] Instance M_monad : Monad M := {
  ret := fun A a st => (Ok a, st);
  bind := fun A B c k st =>
    match c st with
    | (Ok a, st') => k a st'
    | (Raise e, st') => (Raise e, st')
    end
}.

(** A computation without effects, inside one with effects. *)
Definition lift {A} (r : result A) : M A := fun st => (r, st).

(** [try: body except cls as e: handler(e)] *)
Definition try_except {A} (body : M A) (cls : exn -> bool)
    (handler : exn -> M A) : M A :=
  fun st =>
    match body st with
    | (Ok a, st') => (Ok a, st')
    | (Raise e, st') => if cls e then handler e st' else (Raise e, st')
    end.

(** [requests.get(url, params=params)] *)
Definition requests_get (r : get_request) : M response :=
  fun st =>
    let (outcome, w) := http r (env st) in
    let st' := {| env := w; trace := trace st ++ [Requested r] |} in
    match outcome with
    | GetRaises t msg =>
        (Raise {| exn_class_of := Transport t; exn_str := msg |}, st')
    | GetReturns resp => (Ok resp, st')
    | GetFails e => (Raise e, st')
    end.

(** [self.cohere_client.generate(...)] *)
Definition generate (client : str) (g : generate_request)
    : M (list generation) :=
  fun st =>
    let (outcome, w) := cohere client g (env st) in
    let st' := {| env := w; trace := trace st ++ [Generated client g] |} in
    match outcome with
    | GenerateRaises e => (Raise e, st')
    | GenerateReturns generations => (Ok generations, st')
    end.

(** [self.logger.error(msg)] *)
Definition logger_error (msg : str) : M unit :=
  fun st =>
    (Ok tt, {| env := env st; trace := trace st ++ [LoggedError msg] |}).

(** *** [search_books] *)

(** The dictionary appended for one item (lines 53 to 61). *)
Definition book_of_item (item : pyval) : result pyval :=
  volume_info <- py_get item (lit "volumeInfo") (VDict []) ;;
  title <- py_get volume_info (lit "title") VNone ;;
  authors <- py_get volume_info (lit "authors") (VList []) ;;
  description <- py_get volume_info (lit "description") (VStr []) ;;
  categories <- py_get volume_info (lit "categories") (VList []) ;;
  preview_link <- py_get volume_info (lit "previewLink") VNone ;;
  page_count <- py_get volume_info (lit "pageCount") VNone ;;
  ret (VDict [ (lit "title", title);
               (lit "authors", authors);
               (lit "description", description);
               (lit "categories", categories);
               (lit "preview_link", preview_link);
               (lit "page_count", page_count) ]).

Definition search_books (self : GoogleBooksAssistant)
    (query : str) (max_results : Z) : M (list pyval) :=
  try_except
    (let params :=
       {| get_url := google_books_base_url self;
          param_q := query;
          param_key := google_books_api_key self;
          param_maxResults := max_results |} in
     response <- requests_get params ;;
     lift (raise_for_status response) ;;
     results <- lift (response_json response) ;;
     let books := [] in
     items <- lift (py_get results (lit "items") (VList [])) ;;
     items <- lift (py_iter items) ;;
     books <- lift (for_in (m := result) items
                      (fun (books : list pyval) item =>
                         book <- book_of_item item ;;
                         ret (books ++ [book]))
                      books) ;;
     ret books)
    RequestException
    (fun e =>
       logger_error (lit "Error searching Google Books API: " ++ exn_str e) ;;
       ret []).

(** *** [analyze_books] *)

(** The four lines rendered for one book (lines 83 to 86). *)
Definition block (book : pyval) : result str :=
  title <- py_getitem book (lit "title") ;;
  authors <- py_getitem book (lit "authors") ;;
  authors <- py_join (lit ", ") authors ;;
  description <- py_getitem book (lit "description") ;;
  categories <- py_getitem book (lit "categories") ;;
  categories <- py_join (lit ", ") categories ;;
  ret (lit "Book: " ++ py_str title ++ NL
       ++ lit "Authors: " ++ authors ++ NL
       ++ lit "Description: " ++ py_str description ++ NL
       ++ lit "Categories: " ++ categories ++ NL).

(** [context] (lines 82 to 88). *)
Definition context (books : list pyval) : result str :=
  blocks <- comprehension block books ;;
  ret (join NL blocks).

(** [prompt] (lines 91 to 97). *)
Definition prompt (context question : str) : str :=
  lit "Based on the following books information:" ++ NL ++ NL
  ++ context ++ NL ++ NL
  ++ lit "Question: " ++ question ++ NL ++ NL
  ++ lit "Please provide a detailed analysis of these books in relation to the question. Include relevant comparisons, themes, and insights.".

(** The arguments of the call of lines 100 to 108. *)
Definition generate_args (prompt : str) : generate_request :=
  {| gen_model := lit "command";
     gen_prompt := prompt;
     gen_max_tokens := 500;
     gen_temperature := 0.7%float;
     gen_k := 0;
     gen_stop_sequences := [];
     gen_return_likelihoods := lit "NONE" |}.

Definition apology : str :=
  lit "I apologize, but I encountered an error while analyzing the books.".

Definition analyze_books (self : GoogleBooksAssistant)
    (books : list pyval) (question : str) : M str :=
  try_except
    (context <- lift (context books) ;;
     let prompt := prompt context question in
     generations <- generate (cohere_client self) (generate_args prompt) ;;
     first <- lift (first_generation generations) ;;
     lift (py_strip (text first)))
    Exception
    (fun e =>
       logger_error (lit "Error analyzing books with Cohere: " ++ exn_str e) ;;
       ret apology).

(** *** [recommend_similar_books] *)

(** The comprehension of line 144. *)
Definition other_titles (book_title : str) (books : list pyval)
    : result (list pyval) :=
  comprehension_if
    (fun book =>
       title <- py_getitem book (lit "title") ;;
       ret (py_ne title book_title))
    books.

(** The body of the loop over the categories (lines 140 to 145). *)
Definition similar_in_category (self : GoogleBooksAssistant)
    (book_title : str) (max_recommendations : Z)
    (similar_books : list pyval) (category : pyval) : M (list pyval) :=
  let query := lit "subject:" ++ py_str category in
  books <- search_books self query max_recommendations ;;
  books <- lift (other_titles book_title books) ;;
  ret (similar_books ++ books).

Definition recommend_similar_books (self : GoogleBooksAssistant)
    (book_title : str) (max_recommendations : Z) : M (list pyval) :=
  try_except
    (reference_book <- search_books self book_title 1 ;;
     match reference_book with
     | [] => ret []
     | first :: _ =>
         categories <- lift (py_get first (lit "categories") (VList [])) ;;
         let similar_books := [] in
         categories <- lift (py_iter categories) ;;
         similar_books <-
           for_in (m := M) categories
             (similar_in_category self book_title max_recommendations)
             similar_books ;;
         ret (slice_to similar_books max_recommendations)
     end)
    Exception
    (fun e =>
       logger_error (lit "Error recommending similar books: " ++ exn_str e) ;;
       ret []).

(** *** The steps of [search_books], named *)

(** The request of [search_books] (lines 40 to 46). *)
Definition search_request (self : GoogleBooksAssistant)
    (query : str) (max_results : Z) : get_request :=
  {| get_url := google_books_base_url self;
     param_q := query;
     param_key := google_books_api_key self;
     param_maxResults := max_results |}.

(** What [search_books] makes of a response (lines 47 to 63). *)
Definition books_of_response (r : response) : result (list pyval) :=
  raise_for_status r ;;
  results <- response_json r ;;
  items <- py_get results (lit "items") (VList []) ;;
  items <- py_iter items ;;
  comprehension book_of_item items.

(** The state after a call of the search service and after a log entry. *)
Definition requested (r : get_request) (w : world) (st : state) : state :=
  {| env := w; trace := trace st ++ [Requested r] |}.

Definition logged (msg : str) (st : state) : state :=
  {| env := env st; trace := trace st ++ [LoggedError msg] |}.

(** The searches of the loop of [recommend_similar_books], one for each
    category in order, with the books each returns. *)
Inductive category_searches (self : GoogleBooksAssistant)
    (max_recommendations : Z)
    : list pyval -> state -> list (list pyval) -> state -> Prop :=
  | searched_none st :
      category_searches self max_recommendations [] st [] st
  | searched_next category categories st books st1 found st2 :
      search_books self (lit "subject:" ++ py_str category)
        max_recommendations st = (Ok books, st1) ->
      category_searches self max_recommendations categories st1 found st2 ->
      category_searches self max_recommendations
        (category :: categories) st (books :: found) st2.

(** The state after a call of the generation service. *)
Definition generated (client : str) (g : generate_request) (w : world)
    (st : state) : state :=
  {| env := w; trace := trace st ++ [Generated client g] |}.

(** A state in which nothing has happened yet. *)
Definition start (w : world) : state := {| env := w; trace := [] |}.


(** ** Loops and comprehensions *)

Lemma for_in_append {A B : Type} (f : A -> result B) xs ys :
  Forall2 (fun x y => f x = Ok y) xs ys ->
  forall acc,
    for_in (m := result) xs
      (fun (acc : list B) x => y <- f x ;; ret (acc ++ [y])) acc
    = Ok (acc ++ ys).
Proof.
  induction 1 as [|x y xs ys Hxy _ IH]; intros acc; simpl.
  - now rewrite app_nil_r.
  - rewrite Hxy. rewrite IH. now rewrite <- app_assoc.
Qed.

Lemma for_in_append_inv {A B : Type} (f : A -> result B) xs :
  forall acc zs,
    for_in (m := result) xs
      (fun (acc : list B) x => y <- f x ;; ret (acc ++ [y])) acc
    = Ok zs ->
    exists ys, zs = acc ++ ys /\ Forall2 (fun x y => f x = Ok y) xs ys.
Proof.
  induction xs as [|x xs IH]; intros acc zs; simpl.
  - intros [= <-]. exists []. split; [now rewrite app_nil_r | constructor].
  - destruct (f x) as [y|e] eqn:Hfx; [|discriminate].
    intros Hrest. apply IH in Hrest as (ys & -> & Hys).
    exists (y :: ys). split; [now rewrite <- app_assoc | now constructor].
Qed.

Lemma comprehension_ok {A B : Type} (f : A -> result B) xs ys :
  Forall2 (fun x y => f x = Ok y) xs ys -> comprehension f xs = Ok ys.
Proof. intros H. unfold comprehension. now rewrite (for_in_append f _ _ H). Qed.

Lemma comprehension_inv {A B : Type} (f : A -> result B) xs ys :
  comprehension f xs = Ok ys -> Forall2 (fun x y => f x = Ok y) xs ys.
Proof.
  unfold comprehension. intros H.
  apply for_in_append_inv in H as (ys' & -> & H). exact H.
Qed.

Lemma for_in_filter {A : Type} (p : A -> result bool) (q : A -> bool) xs :
  Forall (fun x => p x = Ok (q x)) xs ->
  forall acc,
    for_in (m := result) xs
      (fun (acc : list A) x =>
         b <- p x ;; ret (if b : bool then acc ++ [x] else acc)) acc
    = Ok (acc ++ filter q xs).
Proof.
  induction 1 as [|x xs Hx _ IH]; intros acc; simpl.
  - now rewrite app_nil_r.
  - rewrite Hx. simpl. rewrite IH. destruct (q x); [|reflexivity].
    now rewrite <- app_assoc.
Qed.

Lemma comprehension_if_filter {A : Type} (p : A -> result bool) q xs :
  Forall (fun x => p x = Ok (q x)) xs ->
  comprehension_if p xs = Ok (filter q xs).
Proof. intros H. unfold comprehension_if. now rewrite (for_in_filter p q _ H). Qed.

(** ** Texts *)

Lemma str_eqb_eq a b : str_eqb a b = true <-> a = b.
Proof.
  unfold str_eqb. destruct (str_eq_dec a b); split; congruence.
Qed.

Lemma join_cons sep p q rest :
  join sep (p :: q :: rest) = p ++ sep ++ join sep (q :: rest).
Proof. reflexivity. Qed.

(** Joining blocks that each end with a line feed by a line feed leaves two
    line feeds between the bodies and one at the end. *)
Lemma join_blocks bodies :
  bodies <> [] ->
  join NL (map (fun body => body ++ NL) bodies)
  = join (NL ++ NL) bodies ++ NL.
Proof.
  induction bodies as [|p [|q rest] IH]; intros Hne.
  - congruence.
  - reflexivity.
  - change (map (fun body => body ++ NL) (p :: q :: rest))
      with ((p ++ NL) :: map (fun body => body ++ NL) (q :: rest)).
    change (map (fun body => body ++ NL) (q :: rest))
      with ((q ++ NL) :: map (fun body => body ++ NL) rest) at 1.
    rewrite join_cons.
    change ((q ++ NL) :: map (fun body => body ++ NL) rest)
      with (map (fun body => body ++ NL) (q :: rest)).
    rewrite IH by discriminate.
    rewrite join_cons. now rewrite <- !app_assoc.
Qed.

Lemma lstrip_split s :
  exists leading,
    s = leading ++ lstrip s
    /\ forallb isspace leading = true
    /\ match lstrip s with [] => True | c :: _ => isspace c = false end.
Proof.
  induction s as [|c s (leading & Hs & Hl & Hhead)].
  - exists []. repeat split.
  - simpl. destruct (isspace c) eqn:Hc.
    + exists (c :: leading). simpl. rewrite Hc, Hl.
      split; [now rewrite <- Hs|]. now split.
    + exists []. simpl. now repeat split.
Qed.

Lemma forallb_rev {A} (p : A -> bool) l :
  forallb p l = true -> forallb p (rev l) = true.
Proof.
  rewrite !forallb_forall. intros H x Hx. apply H. now apply in_rev.
Qed.

Lemma rstrip_split s :
  exists trailing,
    s = rstrip s ++ trailing
    /\ forallb isspace trailing = true
    /\ match rev (rstrip s) with
       | [] => True
       | c :: _ => isspace c = false
       end.
Proof.
  unfold rstrip. destruct (lstrip_split (rev s)) as (leading & Hs & Hl & Hh).
  exists (rev leading). split; [|split].
  - rewrite <- rev_app_distr, <- Hs. now rewrite rev_involutive.
  - now apply forallb_rev.
  - now rewrite rev_involutive.
Qed.

(** [strip] takes the white space away from both ends, and nothing else. *)
Lemma strip_trimmed s : trimmed s (strip s).
Proof.
  unfold strip.
  destruct (lstrip_split s) as (leading & Hs & Hl & Hhead).
  destruct (rstrip_split (lstrip s)) as (trailing & Hm & Ht & Hlast).
  exists leading, trailing. split; [|split; [|split; [|split]]].
  - now rewrite <- Hm.
  - exact Hl.
  - exact Ht.
  - destruct (rstrip (lstrip s)) as [|c t] eqn:Hr; [exact I|].
    rewrite Hm in Hhead. exact Hhead.
  - exact Hlast.
Qed.

(** ** Books *)

Lemma book_of_item_info item info :
  item_info item info -> book_of_item item = Ok (book_of_info info).
Proof.
  intros [i Hi | i vi Hi]; unfold book_of_item; simpl; rewrite Hi;
    reflexivity.
Qed.

Lemma book_of_item_is_book item book :
  book_of_item item = Ok book -> is_book book.
Proof.
  unfold book_of_item. simpl.
  destruct (py_get item (lit "volumeInfo") (VDict [])) as [vi|e];
    [|discriminate].
  destruct vi; simpl; try discriminate.
  intros [= <-]. unfold is_book. repeat eexists.
Qed.

Lemma is_book_differs book_title book :
  is_book book ->
  (title <- py_getitem book (lit "title") ;; ret (py_ne title book_title))
  = Ok (negb (has_title book_title book)).
Proof.
  intros (t & a & d & c & p & n & ->).
  change (py_getitem
            (VDict [ (lit "title", t); (lit "authors", a);
                     (lit "description", d); (lit "categories", c);
                     (lit "preview_link", p); (lit "page_count", n) ])
            (lit "title")) with (Ok t).
  change (has_title book_title
            (VDict [ (lit "title", t); (lit "authors", a);
                     (lit "description", d); (lit "categories", c);
                     (lit "preview_link", p); (lit "page_count", n) ]))
    with (match t with VStr s => str_eqb s book_title | _ => false end).
  simpl. destruct t; reflexivity.
Qed.

Lemma other_titles_books book_title books :
  Forall is_book books ->
  other_titles book_title books = Ok (without_title book_title books).
Proof.
  intros H. unfold other_titles, without_title.
  apply comprehension_if_filter.
  eapply Forall_impl; [|exact H]. intros book Hb.
  now apply is_book_differs.
Qed.

(** ** [search_books], step by step *)

Lemma search_books_run self query max_results st :
  search_books self query max_results st
  = let r := search_request self query max_results in
    let (outcome, w) := http r (env st) in
    match outcome with
    | GetRaises t msg =>
        (Ok [],
         logged (lit "Error searching Google Books API: " ++ msg)
           (requested r w st))
    | GetReturns resp =>
        match books_of_response resp with
        | Ok books => (Ok books, requested r w st)
        | Raise e =>
            if RequestException e then
              (Ok [],
               logged (lit "Error searching Google Books API: " ++ exn_str e)
                 (requested r w st))
            else (Raise e, requested r w st)
        end
    | GetFails e =>
        if RequestException e then
          (Ok [],
           logged (lit "Error searching Google Books API: " ++ exn_str e)
             (requested r w st))
        else (Raise e, requested r w st)
    end.
Proof.
  unfold search_books, try_except, requests_get, books_of_response,
    comprehension.
  cbv zeta. fold (search_request self query max_results).
  cbn [bind ret M_monad].
  destruct (http (search_request self query max_results) (env st))
    as [[t msg | resp | e] w]; [reflexivity | | reflexivity].
  unfold lift. fold (requested (search_request self query max_results) w st).
  cbn [bind ret result_monad].
  destruct (raise_for_status resp) as [[]|e]; [|reflexivity].
  destruct (response_json resp) as [results|e]; [|reflexivity].
  destruct (py_get results (lit "items") (VList [])) as [items|e];
    [|reflexivity].
  destruct (py_iter items) as [its|e]; [|reflexivity].
  match goal with
  | |- context [for_in its ?body []] =>
      destruct (for_in its body []) as [books|e]; reflexivity
  end.
Qed.

Lemma books_of_response_books r books :
  books_of_response r = Ok books -> Forall is_book books.
Proof.
  unfold books_of_response. cbn [bind ret result_monad].
  destruct (raise_for_status r) as [[]|e]; [|discriminate].
  destruct (response_json r) as [results|e]; [|discriminate].
  destruct (py_get results (lit "items") (VList [])) as [items|e];
    [|discriminate].
  destruct (py_iter items) as [its|e]; [|discriminate].
  intros H. apply comprehension_inv in H.
  induction H as [|item book its books Hb _ IH]; constructor.
  - now apply book_of_item_is_book with item.
  - exact IH.
Qed.

Lemma search_books_books self query max_results st books st' :
  search_books self query max_results st = (Ok books, st') ->
  Forall is_book books.
Proof.
  rewrite search_books_run. cbv zeta.
  destruct (http (search_request self query max_results) (env st))
    as [[t msg | resp | e] w].
  - intros [= <- _]. constructor.
  - destruct (books_of_response resp) as [bs|e] eqn:Hr.
    + intros [= <- _]. now apply books_of_response_books with resp.
    + destruct (RequestException e); [|discriminate].
      intros [= <- _]. constructor.
  - destruct (RequestException e); [|discriminate].
    intros [= <- _]. constructor.
Qed.

(** ** [search_books] *)

(** C4. When the service answers with a success status and a JSON object
    whose [items], if present, is an array of objects, each with a
    [volumeInfo] object or none, [search_books] returns one book for each
    item, in the order of the items, nothing sorted and nothing dropped;
    each book carries the fields of its [volumeInfo] with the defaults of
    the data model (an absent [volumeInfo] counts as an empty object). The
    books are as many as the items, and nothing is logged. *)
Theorem search_books_success
    self query max_results st resp w results items infos :
  http (search_request self query max_results) (env st)
    = (GetReturns resp, w) ->
  200 <= status_code resp < 300 ->
  body resp = Json (VDict results) ->
  response_items results items ->
  Forall2 item_info items infos ->
  search_books self query max_results st
    = (Ok (map book_of_info infos),
       requested (search_request self query max_results) w st)
  /\ List.length (map book_of_info infos) = List.length items.
Proof.
  intros Hget Hstatus Hbody Hitems Hinfos. split.
  - rewrite search_books_run. cbv zeta. rewrite Hget.
    assert (Hr : books_of_response resp = Ok (map book_of_info infos)).
    { unfold books_of_response. cbn [bind ret result_monad].
      assert (Hs : raise_for_status resp = Ok tt).
      { unfold raise_for_status.
        destruct (400 <=? status_code resp) eqn:H4; [lia|]. simpl.
        destruct (500 <=? status_code resp) eqn:H5; [lia|]. reflexivity. }
      rewrite Hs. unfold response_json. rewrite Hbody.
      assert (Hi : py_get (VDict results) (lit "items") (VList [])
                   = Ok (VList items)).
      { destruct Hitems as [Habs | its Hpres]; simpl.
        - now rewrite Habs.
        - now rewrite Hpres. }
      rewrite Hi. simpl py_iter. cbv iota. apply comprehension_ok.
      clear -Hinfos. induction Hinfos as [|item info its infos Hi _ IH].
      - constructor.
      - simpl. constructor; [now apply book_of_item_info | exact IH]. }
    now rewrite Hr.
  - rewrite length_map. symmetry. now apply Forall2_length with (1 := Hinfos).
Qed.


(** ** [recommend_similar_books], step by step *)

Lemma category_loop self book_title max_recommendations cats st found st2 :
  category_searches self max_recommendations cats st found st2 ->
  forall acc,
    for_in (m := M) cats
      (similar_in_category self book_title max_recommendations) acc st
    = (Ok (acc ++ List.concat (map (without_title book_title) found)), st2).
Proof.
  induction 1 as [st | category cats st books st1 found st2 Hs _ IH];
    intros acc.
  - simpl. now rewrite app_nil_r.
  - cbn [for_in bind M_monad]. unfold similar_in_category at 1.
    cbv zeta. cbn [bind ret M_monad]. rewrite Hs. unfold lift.
    rewrite (other_titles_books book_title)
      by (now apply search_books_books with (1 := Hs)).
    rewrite IH. simpl. now rewrite <- app_assoc.
Qed.

Lemma recommend_run_none self book_title max_recommendations st st1 :
  search_books self book_title 1 st = (Ok [], st1) ->
  recommend_similar_books self book_title max_recommendations st
  = (Ok [], st1).
Proof.
  intros Hs. unfold recommend_similar_books, try_except.
  cbn [bind ret M_monad]. now rewrite Hs.
Qed.

Lemma recommend_run_found
    self book_title max_recommendations st first rest st1
    categories cats found st2 :
  search_books self book_title 1 st = (Ok (first :: rest), st1) ->
  py_get first (lit "categories") (VList []) = Ok categories ->
  py_iter categories = Ok cats ->
  category_searches self max_recommendations cats st1 found st2 ->
  recommend_similar_books self book_title max_recommendations st
  = (Ok (slice_to (List.concat (map (without_title book_title) found))
           max_recommendations), st2).
Proof.
  intros Hs Hc Hi Hl. unfold recommend_similar_books, try_except.
  cbn [bind ret M_monad]. rewrite Hs. unfold lift. rewrite Hc, Hi.
  cbv zeta.
  now rewrite (category_loop _ book_title _ _ _ _ _ Hl []).
Qed.

Lemma without_title_in book_title books book :
  In book (without_title book_title books)
  <-> In book books /\ has_title book_title book = false.
Proof.
  unfold without_title. rewrite filter_In.
  now rewrite negb_true_iff.
Qed.

Lemma has_title_spec book_title book :
  is_book book ->
  (has_title book_title book = true
   <-> py_getitem book (lit "title") = Ok (VStr book_title)).
Proof.
  intros (t & a & d & c & p & n & ->).
  change (py_getitem
            (VDict [ (lit "title", t); (lit "authors", a);
                     (lit "description", d); (lit "categories", c);
                     (lit "preview_link", p); (lit "page_count", n) ])
            (lit "title")) with (Ok t).
  change (has_title book_title
            (VDict [ (lit "title", t); (lit "authors", a);
                     (lit "description", d); (lit "categories", c);
                     (lit "preview_link", p); (lit "page_count", n) ]))
    with (match t with VStr s => str_eqb s book_title | _ => false end).
  destruct t; try (split; [discriminate | intros [= ]]).
  rewrite str_eqb_eq. split; congruence.
Qed.

Lemma without_title_all book_title books :
  Forall (fun book => has_title book_title book = false) books ->
  without_title book_title books = books.
Proof.
  unfold without_title. induction 1 as [|book books Hb _ IH]; simpl.
  - reflexivity.
  - rewrite Hb. simpl. now rewrite IH.
Qed.

Lemma category_searches_books self max_recommendations cats st found st2 :
  category_searches self max_recommendations cats st found st2 ->
  Forall (Forall is_book) found.
Proof.
  induction 1 as [st | category cats st books st1 found st2 Hs _ IH];
    constructor.
  - now apply search_books_books with (1 := Hs).
  - exact IH.
Qed.

Lemma for_in_filter_keeps {A : Type} (p : A -> result bool) x xs :
  forall acc ys,
    for_in (m := result) xs
      (fun (acc : list A) x =>
         b <- p x ;; ret (if b : bool then acc ++ [x] else acc)) acc
    = Ok ys ->
    In x acc \/ In x xs /\ p x = Ok true ->
    In x ys.
Proof.
  induction xs as [|x0 xs IH]; intros acc ys; simpl.
  - intros [= <-] [H | [[] _]]. exact H.
  - destruct (p x0) as [b|e] eqn:Hp; [|discriminate]. simpl.
    intros Hrest Hin. apply IH with (1 := Hrest).
    destruct Hin as [Hin | [[-> | Hin] Hx]].
    + left. destruct b; [apply in_or_app; now left | exact Hin].
    + left. rewrite Hx in Hp. injection Hp as <-.
      apply in_or_app. right. now left.
    + right. now split.
Qed.

Lemma other_titles_keeps_untitled book_title books kept candidate :
  other_titles book_title books = Ok kept ->
  In candidate books ->
  py_getitem candidate (lit "title") = Ok VNone ->
  In candidate kept.
Proof.
  unfold other_titles, comprehension_if. intros Hk Hin Ht.
  apply for_in_filter_keeps with (x := candidate) in Hk; [exact Hk|].
  right. split; [exact Hin|]. now rewrite Ht.
Qed.

Lemma slice_to_nil {A} n : slice_to (@nil A) n = [].
Proof.
  unfold slice_to. destruct (0 <=? n); now rewrite firstn_nil.
Qed.

Lemma slice_to_app_length {A} (l r : list A) n :
  n = Z.of_nat (List.length l) -> slice_to (l ++ r) n = l.
Proof.
  intros ->. unfold slice_to.
  destruct (Z.leb_spec 0 (Z.of_nat (List.length l))) as [_|H]; [|lia].
  rewrite Nat2Z.id.
  now rewrite firstn_app, Nat.sub_diag, firstn_all, firstn_O, app_nil_r.
Qed.

(** ** [recommend_similar_books] *)

(** C1. Once the reference book is found, the books returned are the books
    the category searches found, in order, without those whose title is the
    text [book_title] itself, cut to [max_recommendations]. A candidate is
    kept exactly when its title is not that very text: no case folding, no
    normalisation. The title of the reference book found plays no part: a
    candidate that bears it is kept whenever that title is not
    [book_title]. *)
Theorem recommend_filters_exact_title
    self book_title max_recommendations st first rest st1
    categories cats found st2 :
  search_books self book_title 1 st = (Ok (first :: rest), st1) ->
  py_get first (lit "categories") (VList []) = Ok categories ->
  py_iter categories = Ok cats ->
  category_searches self max_recommendations cats st1 found st2 ->
  recommend_similar_books self book_title max_recommendations st
    = (Ok (slice_to (List.concat (map (without_title book_title) found))
             max_recommendations), st2)
  /\ (forall books, In books found ->
        other_titles book_title books = Ok (without_title book_title books))
  /\ (forall books candidate, In books found -> In candidate books ->
        (In candidate (without_title book_title books)
         <-> py_getitem candidate (lit "title") <> Ok (VStr book_title)))
  /\ (forall books candidate t, In books found -> In candidate books ->
        py_getitem first (lit "title") = Ok t ->
        py_getitem candidate (lit "title") = Ok t ->
        t <> VStr book_title ->
        In candidate (without_title book_title books)).
Proof.
  intros Hs Hc Hi Hl.
  pose proof (category_searches_books _ _ _ _ _ _ Hl) as Hbooks.
  rewrite Forall_forall in Hbooks.
  assert (Hiff : forall books candidate,
             In books found -> In candidate books ->
             (In candidate (without_title book_title books)
              <-> py_getitem candidate (lit "title")
                  <> Ok (VStr book_title))).
  { intros books candidate Hin Hcand.
    specialize (Hbooks books Hin). rewrite Forall_forall in Hbooks.
    specialize (Hbooks candidate Hcand).
    rewrite without_title_in.
    pose proof (has_title_spec book_title _ Hbooks) as Hspec.
    destruct (has_title book_title candidate).
    - split; [intros [_ H]; discriminate|].
      intros H. exfalso. apply H. now apply Hspec.
    - split; [|now split].
      intros _ H. apply Hspec in H. discriminate. }
  repeat split.
  - now apply recommend_run_found with first rest st1 categories cats.
  - intros books Hin. apply other_titles_books. now apply Hbooks.
  - now apply Hiff.
  - now apply Hiff.
  - intros books candidate t Hin Hcand _ Ht Hne.
    apply Hiff; [exact Hin | exact Hcand |]. rewrite Ht. congruence.
Qed.

(** C2. The books of the categories are accumulated in the order of the
    categories and cut afterwards. With two categories and nothing
    filtered, the result is the first [max_recommendations] books of the
    first category's books followed by the second's, whatever titles the
    two share; with three books found in each and [max_recommendations] 3,
    the result is the three books of the first category, in their order. *)
Theorem recommend_accumulates_then_truncates
    self book_title max_recommendations st first rest st1
    categories c1 c2 books1 books2 st2 st3 :
  search_books self book_title 1 st = (Ok (first :: rest), st1) ->
  py_get first (lit "categories") (VList []) = Ok categories ->
  py_iter categories = Ok [c1; c2] ->
  search_books self (lit "subject:" ++ py_str c1) max_recommendations st1
    = (Ok books1, st2) ->
  search_books self (lit "subject:" ++ py_str c2) max_recommendations st2
    = (Ok books2, st3) ->
  Forall (fun book => has_title book_title book = false)
    (books1 ++ books2) ->
  recommend_similar_books self book_title max_recommendations st
    = (Ok (slice_to (books1 ++ books2) max_recommendations), st3)
  /\ (max_recommendations = 3 ->
      List.length books1 = 3%nat -> List.length books2 = 3%nat ->
      recommend_similar_books self book_title max_recommendations st
        = (Ok books1, st3)
      /\ List.length books1 = 3%nat).
Proof.
  intros Hs Hc Hi H1 H2 Hall.
  assert (Hl : category_searches self max_recommendations [c1; c2] st1
                 [books1; books2] st3).
  { eapply searched_next; [exact H1|].
    eapply searched_next; [exact H2|]. constructor. }
  pose proof (recommend_run_found _ _ _ _ _ _ _ _ _ _ _ Hs Hc Hi Hl) as Hrun.
  apply Forall_app in Hall as [Ha Hb].
  simpl in Hrun. rewrite app_nil_r in Hrun.
  rewrite (without_title_all _ _ Ha), (without_title_all _ _ Hb) in Hrun.
  split; [exact Hrun|].
  intros -> Hlen1 Hlen2. split; [|exact Hlen1]. rewrite Hrun.
  rewrite slice_to_app_length; [reflexivity|]. now rewrite Hlen1.
Qed.

(** C6. When the search for the reference book returns no book,
    [recommend_similar_books] returns the empty list at once: nothing is
    done after that search. When the book found has no category, the loop
    has nothing to go through, the result is the empty list, and again no
    search follows the first. *)
Theorem recommend_without_reference_or_categories
    self book_title max_recommendations st :
  (forall st1,
     search_books self book_title 1 st = (Ok [], st1) ->
     recommend_similar_books self book_title max_recommendations st
       = (Ok [], st1))
  /\ (forall first rest st1,
        search_books self book_title 1 st = (Ok (first :: rest), st1) ->
        py_get first (lit "categories") (VList []) = Ok (VList []) ->
        recommend_similar_books self book_title max_recommendations st
          = (Ok [], st1)).
Proof.
  split.
  - intros st1 Hs. now apply recommend_run_none.
  - intros first rest st1 Hs Hc.
    assert (Hl : category_searches self max_recommendations [] st1 [] st1)
      by constructor.
    rewrite (recommend_run_found _ _ _ _ _ _ _ _ _ _ _ Hs Hc eq_refl Hl).
    simpl. now rewrite slice_to_nil.
Qed.

(** ** [analyze_books], step by step *)

Lemma analyze_books_run self books question st :
  analyze_books self books question st
  = match context books with
    | Raise e =>
        (Ok apology,
         logged (lit "Error analyzing books with Cohere: " ++ exn_str e) st)
    | Ok ctx =>
        let g := generate_args (prompt ctx question) in
        let (outcome, w) := cohere (cohere_client self) g (env st) in
        let st1 := generated (cohere_client self) g w st in
        match outcome with
        | GenerateRaises e =>
            (Ok apology,
             logged (lit "Error analyzing books with Cohere: " ++ exn_str e)
               st1)
        | GenerateReturns [] =>
            (Ok apology,
             logged (lit "Error analyzing books with Cohere: "
                     ++ lit "list index out of range") st1)
        | GenerateReturns (first :: _) =>
            match py_strip (text first) with
            | Ok answer => (Ok answer, st1)
            | Raise e =>
                (Ok apology,
                 logged
                   (lit "Error analyzing books with Cohere: " ++ exn_str e)
                   st1)
            end
        end
    end.
Proof.
  unfold analyze_books, try_except, lift, generate.
  cbn [bind ret M_monad].
  destruct (context books) as [ctx|e]; [|reflexivity].
  cbv zeta.
  destruct (cohere (cohere_client self) (generate_args (prompt ctx question))
              (env st)) as [[e | [|first others]] w]; reflexivity.
Qed.

Lemma prompts_of_app tr1 tr2 :
  prompts_of (tr1 ++ tr2) = prompts_of tr1 ++ prompts_of tr2.
Proof.
  induction tr1 as [|[r | key g | msg] tr1 IH]; simpl; congruence.
Qed.

Lemma py_join_texts sep texts :
  py_join sep (VList (map VStr texts)) = Ok (join sep texts).
Proof.
  unfold py_join. simpl py_iter. cbv iota.
  assert (H : forall acc,
            for_in (m := result) (map VStr texts)
              (fun (acc : list str) item =>
                 match item with
                 | VStr s => Ok (acc ++ [s])
                 | _ =>
                     raise_of TypeError
                       (lit "sequence item "
                        ++ decimal (Z.of_nat (List.length acc))
                        ++ lit ": expected str instance, " ++ type_name item
                        ++ lit " found")
                 end) acc
            = Ok (acc ++ texts)).
  { induction texts as [|t texts IH]; intros acc; simpl.
    - now rewrite app_nil_r.
    - rewrite IH. now rewrite <- app_assoc. }
  cbn [bind ret result_monad]. now rewrite H.
Qed.

Lemma block_of_record r :
  block (dict_of_record r) = Ok (four_lines r ++ NL).
Proof.
  unfold block.
  change (py_getitem (dict_of_record r) (lit "title"))
    with (Ok (optional VStr (title r))).
  change (py_getitem (dict_of_record r) (lit "authors"))
    with (Ok (VList (map VStr (authors r)))).
  change (py_getitem (dict_of_record r) (lit "description"))
    with (Ok (VStr (description r))).
  change (py_getitem (dict_of_record r) (lit "categories"))
    with (Ok (VList (map VStr (categories r)))).
  cbn [bind ret result_monad]. rewrite !py_join_texts.
  unfold four_lines. cbn [py_str].
  replace (py_str (optional VStr (title r)))
    with (match title r with Some t => t | None => lit "None" end)
    by (destruct (title r); reflexivity).
  now rewrite <- !app_assoc.
Qed.

Lemma context_of_records records :
  context (map dict_of_record records)
  = Ok (join NL (map (fun r => four_lines r ++ NL) records)).
Proof.
  unfold context.
  rewrite (comprehension_ok block (map dict_of_record records)
             (map (fun r => four_lines r ++ NL) records)).
  - reflexivity.
  - induction records as [|r records IH]; simpl; constructor.
    + apply block_of_record.
    + exact IH.
Qed.

Lemma block_ends_with_line_feed book rendered :
  block book = Ok rendered -> exists body, rendered = body ++ NL.
Proof.
  unfold block. cbn [bind ret result_monad].
  destruct (py_getitem book (lit "title")) as [t|e]; [|discriminate].
  destruct (py_getitem book (lit "authors")) as [a|e]; [|discriminate].
  destruct (py_join (lit ", ") a) as [a'|e]; [|discriminate].
  destruct (py_getitem book (lit "description")) as [d|e]; [|discriminate].
  destruct (py_getitem book (lit "categories")) as [c|e]; [|discriminate].
  destruct (py_join (lit ", ") c) as [c'|e]; [|discriminate].
  intros [= <-].
  exists (lit "Book: " ++ py_str t ++ NL
          ++ lit "Authors: " ++ a' ++ NL
          ++ lit "Description: " ++ py_str d ++ NL
          ++ lit "Categories: " ++ c').
  now rewrite <- !app_assoc.
Qed.

(** ** [analyze_books] *)

(** C5. [analyze_books] returns a text whatever the books, the question and
    the service: when the context is built and the service returns a first
    generation whose text is a text, that text stripped of the white space
    at both ends (the generated text is the answer between two runs of
    white space, and the answer neither begins nor ends with white space);
    in every other case (the context cannot be built, the
    service raises, the service returns no generation or one without a
    text) one error is logged and the fixed apology is returned. *)
Theorem analyze_books_never_raises self books question st :
  exists answer st',
    analyze_books self books question st = (Ok answer, st')
    /\ ((exists ctx w first others generated_text,
           context books = Ok ctx
           /\ cohere (cohere_client self)
                (generate_args (prompt ctx question)) (env st)
              = (GenerateReturns (first :: others), w)
           /\ text first = VStr generated_text
           /\ answer = strip generated_text
           /\ trimmed generated_text answer
           /\ st' = generated (cohere_client self)
                      (generate_args (prompt ctx question)) w st)
        \/ (exists e st1,
              answer = apology
              /\ st' = logged (lit "Error analyzing books with Cohere: "
                               ++ exn_str e) st1
              /\ (context books = Raise e /\ st1 = st
                  \/ exists ctx w outcome,
                       context books = Ok ctx
                       /\ cohere (cohere_client self)
                            (generate_args (prompt ctx question)) (env st)
                          = (outcome, w)
                       /\ st1 = generated (cohere_client self)
                                  (generate_args (prompt ctx question)) w st
                       /\ (outcome = GenerateRaises e
                           \/ outcome = GenerateReturns []
                              /\ exn_class_of e = IndexError
                           \/ exists first others,
                                outcome = GenerateReturns (first :: others)
                                /\ py_strip (text first) = Raise e)))).
Proof.
  rewrite analyze_books_run.
  destruct (context books) as [ctx|e] eqn:Hc.
  - cbv zeta.
    destruct (cohere (cohere_client self)
                (generate_args (prompt ctx question)) (env st))
      as [[e | [|first others]] w] eqn:Hg.
    + do 2 eexists. split; [reflexivity|]. right. exists e. eexists.
      split; [reflexivity|]. split; [reflexivity|].
      right. exists ctx, w, (GenerateRaises e).
      split; [reflexivity|]. split; [exact Hg|]. split; [reflexivity|].
      now left.
    + do 2 eexists. split; [reflexivity|]. right.
      exists {| exn_class_of := IndexError;
                exn_str := lit "list index out of range" |}.
      eexists. split; [reflexivity|]. split; [reflexivity|].
      right. exists ctx, w, (GenerateReturns []).
      split; [reflexivity|]. split; [exact Hg|]. split; [reflexivity|].
      right. left. now split.
    + destruct (py_strip (text first)) as [answer|e] eqn:Hs.
      * do 2 eexists. split; [reflexivity|]. left.
        destruct (text first) as [| | | |s| |] eqn:Ht; try discriminate.
        injection Hs as <-.
        exists ctx, w, first, others, s.
        split; [reflexivity|]. split; [exact Hg|]. split; [exact Ht|].
        split; [reflexivity|]. split; [apply strip_trimmed | reflexivity].
      * do 2 eexists. split; [reflexivity|]. right. exists e. eexists.
        split; [reflexivity|]. split; [reflexivity|].
        right. exists ctx, w, (GenerateReturns (first :: others)).
        split; [reflexivity|]. split; [exact Hg|]. split; [reflexivity|].
        right. right. exists first, others. now split.
  - do 2 eexists. split; [reflexivity|]. right. exists e, st.
    split; [reflexivity|]. split; [reflexivity|]. left. now split.
Qed.

(** C7. The prompt [analyze_books] sends is a function of the books and the
    question alone: whatever the assistant, the state and the services, the
    prompts it adds to those already sent are the same, namely the fixed
    template with the context and the question in their places when the
    context can be built, and none otherwise. For books of the data model
    the context is the four-line blocks of the books, each with
    comma-joined authors and categories and ended by a line feed, in the
    order of the books and joined by a line feed, and exactly one prompt is
    sent: the fixed template around these blocks and the question. *)
Theorem analyze_prompt_deterministic books question :
  (forall self st,
     prompts_of (trace (snd (analyze_books self books question st)))
     = prompts_of (trace st)
       ++ match context books with
          | Ok ctx =>
              [lit "Based on the following books information:" ++ NL ++ NL
               ++ ctx ++ NL ++ NL
               ++ lit "Question: " ++ question ++ NL ++ NL
               ++ lit "Please provide a detailed analysis of these books in relation to the question. Include relevant comparisons, themes, and insights."]
          | Raise _ => []
          end)
  /\ (forall self1 self2 st1 st2,
        prompts_of (trace st1) = prompts_of (trace st2) ->
        prompts_of (trace (snd (analyze_books self1 books question st1)))
        = prompts_of (trace (snd (analyze_books self2 books question st2))))
  /\ (forall self st records,
        prompts_of
          (trace (snd (analyze_books self (map dict_of_record records)
                         question st)))
        = prompts_of (trace st)
          ++ [lit "Based on the following books information:" ++ NL ++ NL
              ++ join NL (map (fun r => four_lines r ++ NL) records)
              ++ NL ++ NL
              ++ lit "Question: " ++ question ++ NL ++ NL
              ++ lit "Please provide a detailed analysis of these books in relation to the question. Include relevant comparisons, themes, and insights."]).
Proof.
  assert (H : forall bs self st,
            prompts_of (trace (snd (analyze_books self bs question st)))
            = prompts_of (trace st)
              ++ match context bs with
                 | Ok ctx => [prompt ctx question]
                 | Raise _ => []
                 end).
  { intros bs self st. rewrite analyze_books_run.
    destruct (context bs) as [ctx|e].
    - cbv zeta.
      destruct (cohere (cohere_client self)
                  (generate_args (prompt ctx question)) (env st))
        as [[e | [|first others]] w];
        try destruct (py_strip (text first)) as [answer|e];
        simpl; rewrite ?prompts_of_app; simpl; now rewrite ?app_nil_r.
    - simpl. now rewrite prompts_of_app. }
  split; [|split].
  - intros self st. rewrite H. destruct (context books); reflexivity.
  - intros self1 self2 st1 st2 Hsame. rewrite !H. now rewrite Hsame.
  - intros self st records. rewrite H. rewrite context_of_records.
    reflexivity.
Qed.


(** C9. Every block ends with a line feed of its own, and the blocks are
    joined by one more: the context of no book is the empty text, and the
    context of one book or more is the bodies of the blocks with two line
    feeds, that is one blank line, between consecutive bodies, and one line
    feed at the end. *)
Theorem context_blank_line_between_blocks :
  (forall book rendered,
     block book = Ok rendered -> exists body, rendered = body ++ NL)
  /\ context [] = Ok []
  /\ (forall books bodies,
        Forall2 (fun book body => block book = Ok (body ++ NL))
          books bodies ->
        context books = Ok (join NL (map (fun body => body ++ NL) bodies))
        /\ (bodies <> [] ->
            context books = Ok (join (NL ++ NL) bodies ++ NL)))
  /\ (forall book body,
        block book = Ok (body ++ NL) -> context [book] = Ok (body ++ NL))
  /\ (forall book1 book2 body1 body2,
        block book1 = Ok (body1 ++ NL) -> block book2 = Ok (body2 ++ NL) ->
        context [book1; book2]
        = Ok (body1 ++ NL ++ NL ++ body2 ++ NL)).
Proof.
  assert (H : forall books bodies,
            Forall2 (fun book body => block book = Ok (body ++ NL))
              books bodies ->
            context books
            = Ok (join NL (map (fun body => body ++ NL) bodies))).
  { intros books bodies Hb. unfold context.
    rewrite (comprehension_ok block books
               (map (fun body => body ++ NL) bodies)); [reflexivity|].
    induction Hb as [|book body books bodies Hbk _ IH]; simpl;
      constructor; assumption. }
  split; [exact block_ends_with_line_feed|].
  split; [reflexivity|].
  split; [|split].
  - intros books bodies Hb. split; [now apply H|].
    intros Hne. rewrite (H books bodies Hb). now rewrite join_blocks.
  - intros book body Hb.
    now rewrite (H [book] [body]) by (repeat constructor; assumption).
  - intros book1 book2 body1 body2 H1 H2.
    rewrite (H [book1; book2] [body1; body2])
      by (repeat constructor; assumption).
    simpl. now rewrite <- !app_assoc.
Qed.

(** * Further properties of the three operations and of [main] *)

(** The requests of a trace, in order. *)
Fixpoint requests_of (tr : list event) : list get_request :=
  match tr with
  | [] => []
  | Requested r :: rest => r :: requests_of rest
  | _ :: rest => requests_of rest
  end.

(** The keys of the dictionaries [search_books] builds (lines 55 to 60). *)
Definition book_keys : list str :=
  [ lit "title"; lit "authors"; lit "description"; lit "categories";
    lit "preview_link"; lit "page_count" ].

Lemma requests_of_app tr1 tr2 :
  requests_of (tr1 ++ tr2) = requests_of tr1 ++ requests_of tr2.
Proof.
  induction tr1 as [|[r | key g | msg] tr1 IH]; simpl; congruence.
Qed.

(** Every run of [search_books] ends in one of three ways. *)
Lemma search_books_cases self query max_results st :
  let r := search_request self query max_results in
  let w := snd (http r (env st)) in
  (exists books,
     search_books self query max_results st = (Ok books, requested r w st)
     /\ Forall is_book books)
  \/ (exists msg,
        search_books self query max_results st
        = (Ok [],
           logged (lit "Error searching Google Books API: " ++ msg)
             (requested r w st)))
  \/ (exists e,
        search_books self query max_results st = (Raise e, requested r w st)
        /\ RequestException e = false).
Proof.
  cbv zeta. rewrite search_books_run. cbv zeta.
  destruct (http (search_request self query max_results) (env st))
    as [[t msg | resp | e] w]; cbn [snd].
  - right. left. now exists msg.
  - destruct (books_of_response resp) as [books|e] eqn:Hr.
    + left. exists books. split; [reflexivity|].
      now apply books_of_response_books with resp.
    + destruct (RequestException e) eqn:Hc.
      * right. left. now exists (exn_str e).
      * right. right. exists e. now split.
  - destruct (RequestException e) eqn:Hc.
    + right. left. now exists (exn_str e).
    + right. right. exists e. now split.
Qed.

Lemma search_books_requests self query max_results st :
  requests_of (trace (snd (search_books self query max_results st)))
  = requests_of (trace st) ++ [search_request self query max_results].
Proof.
  destruct (search_books_cases self query max_results st)
    as [(books & -> & _) | [(msg & ->) | (e & -> & _)]];
    cbn [snd trace requested logged]; rewrite !requests_of_app;
    simpl; now rewrite ?app_nil_r.
Qed.

Lemma search_books_prompts self query max_results st :
  prompts_of (trace (snd (search_books self query max_results st)))
  = prompts_of (trace st).
Proof.
  destruct (search_books_cases self query max_results st)
    as [(books & -> & _) | [(msg & ->) | (e & -> & _)]];
    cbn [snd trace requested logged]; rewrite !prompts_of_app;
    simpl; now rewrite ?app_nil_r.
Qed.

(** ** [search_books]: its effects and its books *)

(** X1. Whatever the service does, [search_books] calls it exactly once,
    with the query, the key of the assistant and [max_results] as
    parameters, and writes at most one log entry; when it writes one, it
    returns the empty list. *)
Theorem search_books_one_request self query max_results st :
  let r := search_request self query max_results in
  let run := search_books self query max_results st in
  env (snd run) = snd (http r (env st))
  /\ requests_of (trace (snd run)) = requests_of (trace st) ++ [r]
  /\ get_url r = google_books_base_url self
  /\ param_q r = query
  /\ param_key r = google_books_api_key self
  /\ param_maxResults r = max_results
  /\ (trace (snd run) = trace st ++ [Requested r]
      \/ exists msg,
           fst run = Ok []
           /\ trace (snd run)
              = trace st
                ++ [Requested r;
                    LoggedError
                      (lit "Error searching Google Books API: " ++ msg)]).
Proof.
  cbv zeta. split; [|split; [apply search_books_requests|]].
  - destruct (search_books_cases self query max_results st)
      as [(books & -> & _) | [(msg & ->) | (e & -> & _)]]; reflexivity.
  - repeat (split; [reflexivity|]).
    destruct (search_books_cases self query max_results st)
      as [(books & -> & _) | [(msg & ->) | (e & -> & _)]];
      cbn [fst snd trace requested logged].
    + now left.
    + right. exists msg. split; [reflexivity|]. now rewrite <- app_assoc.
    + now left.
Qed.

(** X2. Every book [search_books] returns is a dictionary with the six keys
    title, authors, description, categories, preview_link and page_count,
    in this order, whatever the response held: subscripting a returned book
    by one of them never raises. *)
Theorem search_books_books_have_six_keys
    self query max_results st books st' :
  search_books self query max_results st = (Ok books, st') ->
  Forall
    (fun book =>
       (exists d, book = VDict d /\ map fst d = book_keys)
       /\ forall key, In key book_keys ->
            exists v, py_getitem book key = Ok v)
    books.
Proof.
  intros Hs. apply search_books_books in Hs.
  eapply Forall_impl; [|exact Hs].
  intros book (t & a & d & c & p & n & ->). split.
  - eexists. split; reflexivity.
  - intros key Hkey. unfold book_keys in Hkey. simpl in Hkey.
    destruct Hkey as [<- | [<- | [<- | [<- | [<- | [<- | []]]]]]];
      eexists; reflexivity.
Qed.

(** ** [recommend_similar_books]: failures, bounds and requests *)

Lemma similar_in_category_ok
    self book_title max_recommendations acc category st books st1 :
  search_books self (lit "subject:" ++ py_str category)
    max_recommendations st = (Ok books, st1) ->
  similar_in_category self book_title max_recommendations acc category st
  = (Ok (acc ++ without_title book_title books), st1).
Proof.
  intros Hs. unfold similar_in_category. cbv zeta.
  cbn [bind ret M_monad]. rewrite Hs. unfold lift.
  now rewrite (other_titles_books book_title)
    by (now apply search_books_books with (1 := Hs)).
Qed.

Lemma similar_in_category_raise
    self book_title max_recommendations acc category st e st1 :
  search_books self (lit "subject:" ++ py_str category)
    max_recommendations st = (Raise e, st1) ->
  similar_in_category self book_title max_recommendations acc category st
  = (Raise e, st1).
Proof.
  intros Hs. unfold similar_in_category. cbv zeta.
  cbn [bind ret M_monad]. now rewrite Hs.
Qed.

Lemma category_loop_inv self book_title max_recommendations cats :
  forall acc st acc' st',
    for_in (m := M) cats
      (similar_in_category self book_title max_recommendations) acc st
    = (Ok acc', st') ->
    exists found,
      category_searches self max_recommendations cats st found st'
      /\ acc' = acc ++ List.concat (map (without_title book_title) found).
Proof.
  induction cats as [|category cats IH]; intros acc st acc' st'.
  - simpl. intros [= <- <-]. exists []. split; [constructor|].
    simpl. now rewrite app_nil_r.
  - cbn [for_in bind M_monad].
    destruct (search_books self (lit "subject:" ++ py_str category)
                max_recommendations st) as [[books|e] st1] eqn:Hs.
    + rewrite (similar_in_category_ok _ book_title _ acc _ _ _ _ Hs).
      intros Hrest. apply IH in Hrest as (found & Hfound & ->).
      exists (books :: found). split.
      * now apply searched_next with st1.
      * simpl. now rewrite <- app_assoc.
    + rewrite (similar_in_category_raise _ book_title _ acc _ _ _ _ Hs).
      discriminate.
Qed.

Lemma category_loop_raise
    self book_title max_recommendations before st found st2 :
  category_searches self max_recommendations before st found st2 ->
  forall category after e st3 acc,
    search_books self (lit "subject:" ++ py_str category)
      max_recommendations st2 = (Raise e, st3) ->
    for_in (m := M) (before ++ category :: after)
      (similar_in_category self book_title max_recommendations) acc st
    = (Raise e, st3).
Proof.
  induction 1 as [st | c cats st books st1 found st2 Hs _ IH];
    intros category after e st3 acc Hraise.
  - cbn [app for_in bind M_monad].
    now rewrite (similar_in_category_raise _ book_title _ acc _ _ _ _ Hraise).
  - cbn [app for_in bind M_monad].
    rewrite (similar_in_category_ok _ book_title _ acc _ _ _ _ Hs).
    now apply IH.
Qed.

(** Every run of [recommend_similar_books] ends with the empty list or with
    the books of the category searches, filtered and cut. *)
Lemma recommend_cases self book_title max_recommendations st :
  (exists st',
     recommend_similar_books self book_title max_recommendations st
     = (Ok [], st'))
  \/ (exists first rest st1 categories cats found st2,
        search_books self book_title 1 st = (Ok (first :: rest), st1)
        /\ py_get first (lit "categories") (VList []) = Ok categories
        /\ py_iter categories = Ok cats
        /\ category_searches self max_recommendations cats st1 found st2
        /\ recommend_similar_books self book_title max_recommendations st
           = (Ok (slice_to
                    (List.concat (map (without_title book_title) found))
                    max_recommendations), st2)).
Proof.
  destruct (search_books self book_title 1 st)
    as [[[|first rest]|e] st1] eqn:Hs.
  - left. exists st1. now apply recommend_run_none.
  - destruct (py_get first (lit "categories") (VList []))
      as [categories|e] eqn:Hc.
    + destruct (py_iter categories) as [cats|e] eqn:Hi.
      * destruct (for_in (m := M) cats
                    (similar_in_category self book_title max_recommendations)
                    [] st1) as [[acc|e] st2] eqn:Hl.
        -- right. apply category_loop_inv in Hl as (found & Hfound & ->).
           exists first, rest, st1, categories, cats, found, st2.
           repeat (split; [first [reflexivity | assumption]|]).
           now apply recommend_run_found with first rest st1 categories cats.
        -- left. unfold recommend_similar_books, try_except.
           cbn [bind ret M_monad]. rewrite Hs. unfold lift.
           rewrite Hc, Hi. cbv zeta. rewrite Hl. eexists. reflexivity.
      * left. unfold recommend_similar_books, try_except.
        cbn [bind ret M_monad]. rewrite Hs. unfold lift.
        rewrite Hc, Hi. eexists. reflexivity.
    + left. unfold recommend_similar_books, try_except.
      cbn [bind ret M_monad]. rewrite Hs. unfold lift.
      rewrite Hc. eexists. reflexivity.
  - left. unfold recommend_similar_books, try_except.
    cbn [bind ret M_monad]. rewrite Hs. eexists. reflexivity.
Qed.

(** X3. [recommend_similar_books] never raises, whatever the service
    answers. When the lookup of the reference book raises (which
    [search_books] does not prevent) and when the categories of the book
    found cannot be iterated, it logs the error once and returns the empty
    list. *)
Theorem recommend_never_raises self book_title max_recommendations st :
  (exists books st',
     recommend_similar_books self book_title max_recommendations st
     = (Ok books, st'))
  /\ (forall e st1,
        search_books self book_title 1 st = (Raise e, st1) ->
        recommend_similar_books self book_title max_recommendations st
        = (Ok [],
           logged (lit "Error recommending similar books: " ++ exn_str e)
             st1))
  /\ (forall first rest st1 categories e,
        search_books self book_title 1 st = (Ok (first :: rest), st1) ->
        py_get first (lit "categories") (VList []) = Ok categories ->
        py_iter categories = Raise e ->
        recommend_similar_books self book_title max_recommendations st
        = (Ok [],
           logged (lit "Error recommending similar books: " ++ exn_str e)
             st1)).
Proof.
  split; [|split].
  - destruct (recommend_cases self book_title max_recommendations st)
      as [[st' H] | (first & rest & st1 & categories & cats & found & st2
                     & _ & _ & _ & _ & H)];
      rewrite H; do 2 eexists; reflexivity.
  - intros e st1 Hs. unfold recommend_similar_books, try_except.
    cbn [bind ret M_monad]. now rewrite Hs.
  - intros first rest st1 categories e Hs Hc Hi.
    unfold recommend_similar_books, try_except.
    cbn [bind ret M_monad]. rewrite Hs. unfold lift. now rewrite Hc, Hi.
Qed.

(** X4. The books of the categories are all or nothing: when the search of
    one category raises, the books the categories before it gave are
    dropped, the categories after it are not searched, the error is logged
    once and the empty list is returned. *)
Theorem recommend_discards_on_failure
    self book_title max_recommendations st first rest st1
    categories before category after found st2 e st3 :
  search_books self book_title 1 st = (Ok (first :: rest), st1) ->
  py_get first (lit "categories") (VList []) = Ok categories ->
  py_iter categories = Ok (before ++ category :: after) ->
  category_searches self max_recommendations before st1 found st2 ->
  search_books self (lit "subject:" ++ py_str category)
    max_recommendations st2 = (Raise e, st3) ->
  recommend_similar_books self book_title max_recommendations st
  = (Ok [],
     logged (lit "Error recommending similar books: " ++ exn_str e) st3).
Proof.
  intros Hs Hc Hi Hbefore Hraise.
  unfold recommend_similar_books, try_except.
  cbn [bind ret M_monad]. rewrite Hs. unfold lift. rewrite Hc, Hi.
  cbv zeta.
  now rewrite (category_loop_raise _ book_title _ _ _ _ _ Hbefore
                 category after e st3 [] Hraise).
Qed.

Lemma slice_to_length_le {A} (l : list A) n :
  0 <= n -> Z.of_nat (List.length (slice_to l n)) <= n.
Proof.
  intros Hn. unfold slice_to.
  destruct (Z.leb_spec 0 n) as [_|H]; [|lia].
  rewrite length_firstn. lia.
Qed.

Lemma slice_to_Forall {A} (P : A -> Prop) (l : list A) n :
  Forall P l -> Forall P (slice_to l n).
Proof.
  intros H.
  assert (Hfirst : forall k, Forall P (firstn k l)).
  { intros k. rewrite <- (firstn_skipn k l) in H.
    now apply Forall_app in H as [H _]. }
  unfold slice_to. destruct (0 <=? n); apply Hfirst.
Qed.

Lemma recommend_books
    self book_title max_recommendations st books st' :
  recommend_similar_books self book_title max_recommendations st
    = (Ok books, st') ->
  Forall is_book books
  /\ Forall (fun book =>
               py_getitem book (lit "title") <> Ok (VStr book_title)) books
  /\ (0 <= max_recommendations ->
      Z.of_nat (List.length books) <= max_recommendations).
Proof.
  intros Hrun.
  destruct (recommend_cases self book_title max_recommendations st)
    as [[st0 H] | (first & rest & st1 & categories & cats & found & st2
                   & _ & _ & _ & Hfound & H)];
    rewrite H in Hrun; injection Hrun as <- _.
  - repeat split; [constructor | constructor | simpl; lia].
  - assert (Hall : Forall
                     (fun book => is_book book
                                  /\ has_title book_title book = false)
                     (List.concat (map (without_title book_title) found))).
    { apply category_searches_books in Hfound. clear H.
      induction Hfound as [|hit found Hhit _ IH]; simpl; [constructor|].
      apply Forall_app. split; [|exact IH].
      rewrite Forall_forall in *. intros book Hin.
      apply without_title_in in Hin as [Hin Ht]. split; [|exact Ht].
      now apply Hhit. }
    split; [|split].
    + apply slice_to_Forall. eapply Forall_impl; [|exact Hall].
      now intros book [Hb _].
    + apply slice_to_Forall. eapply Forall_impl; [|exact Hall].
      intros book [Hb Ht] Heq.
      apply (has_title_spec book_title _ Hb) in Heq. congruence.
    + intros Hmax. now apply slice_to_length_le.
Qed.

(** X5. The books [recommend_similar_books] returns are dictionaries with
    the six keys of [search_books], none of them has the text [book_title]
    as its title, and when [max_recommendations] is not negative they are
    at most [max_recommendations]. *)
Theorem recommend_returns_other_books
    self book_title max_recommendations st books st' :
  recommend_similar_books self book_title max_recommendations st
    = (Ok books, st') ->
  Forall is_book books
  /\ Forall (fun book =>
               py_getitem book (lit "title") <> Ok (VStr book_title)) books
  /\ (0 <= max_recommendations ->
      Z.of_nat (List.length books) <= max_recommendations).
Proof. apply recommend_books. Qed.

Lemma category_searches_requests
    self max_recommendations cats st found st2 :
  category_searches self max_recommendations cats st found st2 ->
  requests_of (trace st2)
  = requests_of (trace st)
    ++ map (fun category =>
              search_request self (lit "subject:" ++ py_str category)
                max_recommendations) cats
  /\ prompts_of (trace st2) = prompts_of (trace st).
Proof.
  induction 1 as [st | c cats st books st1 found st2 Hs _ [IHr IHp]].
  - simpl. now rewrite app_nil_r.
  - pose proof (search_books_requests self (lit "subject:" ++ py_str c)
                  max_recommendations st) as Hr.
    pose proof (search_books_prompts self (lit "subject:" ++ py_str c)
                  max_recommendations st) as Hp.
    rewrite Hs in Hr, Hp. cbn [snd] in Hr, Hp.
    rewrite IHr, IHp, Hr, Hp. simpl. now rewrite <- app_assoc.
Qed.

(** X6. Once the reference book is found, [recommend_similar_books] sends
    one request for the lookup, with [maxResults] 1, and then one request
    for each category, in the order of the categories, with the query
    [subject:] followed by the category and [maxResults]
    [max_recommendations]; it sends no other request and never calls the
    generation service. A categories value that is a text is gone through
    character by character. *)
Theorem recommend_requests
    self book_title max_recommendations st first rest st1
    categories cats found st2 :
  search_books self book_title 1 st = (Ok (first :: rest), st1) ->
  py_get first (lit "categories") (VList []) = Ok categories ->
  py_iter categories = Ok cats ->
  category_searches self max_recommendations cats st1 found st2 ->
  let run :=
    recommend_similar_books self book_title max_recommendations st in
  requests_of (trace (snd run))
  = requests_of (trace st)
    ++ search_request self book_title 1
       :: map (fun category =>
                 search_request self (lit "subject:" ++ py_str category)
                   max_recommendations) cats
  /\ prompts_of (trace (snd run)) = prompts_of (trace st)
  /\ (forall text, categories = VStr text ->
        cats = map (fun c => VStr [c]) text).
Proof.
  intros Hs Hc Hi Hfound run. subst run.
  rewrite (recommend_run_found _ _ _ _ _ _ _ _ _ _ _ Hs Hc Hi Hfound).
  cbn [snd].
  destruct (category_searches_requests _ _ _ _ _ _ Hfound) as [Hr Hp].
  pose proof (search_books_requests self book_title 1 st) as Hr1.
  pose proof (search_books_prompts self book_title 1 st) as Hp1.
  rewrite Hs in Hr1, Hp1. cbn [snd] in Hr1, Hp1.
  split; [|split].
  - rewrite Hr, Hr1. now rewrite <- app_assoc.
  - now rewrite Hp, Hp1.
  - intros text ->. simpl in Hi. congruence.
Qed.

(** ** [analyze_books]: the context and the call of the service *)

Lemma for_in_append_raise {A B : Type} (f : A -> result B) before ys :
  Forall2 (fun x y => f x = Ok y) before ys ->
  forall x after e acc,
    f x = Raise e ->
    for_in (m := result) (before ++ x :: after)
      (fun (acc : list B) x => y <- f x ;; ret (acc ++ [y])) acc
    = Raise e.
Proof.
  induction 1 as [|x0 y xs ys Hxy _ IH]; intros x after e acc Hx; simpl.
  - now rewrite Hx.
  - rewrite Hxy. simpl. now apply IH.
Qed.

Lemma for_in_append_some_raise {A B : Type} (f : A -> result B) xs :
  Exists (fun x => exists e, f x = Raise e) xs ->
  forall acc,
    exists e,
      for_in (m := result) xs
        (fun (acc : list B) x => y <- f x ;; ret (acc ++ [y])) acc
      = Raise e.
Proof.
  induction xs as [|x xs IH]; intros Hex acc.
  - inversion Hex.
  - simpl. destruct (f x) as [y|e] eqn:Hfx.
    + simpl. apply IH. inversion Hex as [? ? [e He] | ? ? Hrest]; subst.
      * congruence.
      * exact Hrest.
    + now exists e.
Qed.

(** X7. The context is built when and only when every book can be rendered,
    and is then the blocks joined by a line feed; otherwise building it
    fails with the error of the first book that cannot be rendered. *)
Theorem context_fails_at_first_bad_book :
  (forall books ctx,
     context books = Ok ctx
     <-> exists blocks,
           Forall2 (fun book rendered => block book = Ok rendered)
             books blocks
           /\ ctx = join NL blocks)
  /\ (forall before book after blocks e,
        Forall2 (fun book rendered => block book = Ok rendered)
          before blocks ->
        block book = Raise e ->
        context (before ++ book :: after) = Raise e).
Proof.
  split.
  - intros books ctx. unfold context. split.
    + destruct (comprehension block books) as [blocks|e] eqn:Hb;
        [|discriminate].
      simpl. intros [= <-]. exists blocks. split; [|reflexivity].
      now apply comprehension_inv.
    + intros (blocks & Hb & ->).
      now rewrite (comprehension_ok block books blocks Hb).
  - intros before book after blocks e Hb He. unfold context, comprehension.
    now rewrite (for_in_append_raise block before blocks Hb book after e []
                   He).
Qed.

(** X8. [analyze_books] never calls the search service. It calls the
    generation service once when the context can be built and not at all
    otherwise: a single book that cannot be rendered costs the answer for
    all of them. After the call it writes at most one log entry, and the
    answer is then the apology. *)
Theorem analyze_books_calls_service_at_most_once
    self books question st :
  let run := analyze_books self books question st in
  requests_of (trace (snd run)) = requests_of (trace st)
  /\ match context books with
     | Raise e =>
         run
         = (Ok apology,
            logged (lit "Error analyzing books with Cohere: " ++ exn_str e)
              st)
     | Ok ctx =>
         env (snd run)
         = snd (cohere (cohere_client self)
                  (generate_args (prompt ctx question)) (env st))
         /\ exists logs,
              trace (snd run)
              = trace st
                ++ Generated (cohere_client self)
                     (generate_args (prompt ctx question)) :: logs
              /\ (logs = []
                  \/ fst run = Ok apology
                     /\ exists msg,
                          logs
                          = [LoggedError
                               (lit "Error analyzing books with Cohere: "
                                ++ msg)])
     end.
Proof.
  cbv zeta. rewrite analyze_books_run.
  destruct (context books) as [ctx|e].
  - cbv zeta.
    destruct (cohere (cohere_client self)
                (generate_args (prompt ctx question)) (env st))
      as [[e | [|first others]] w];
      try destruct (py_strip (text first)) as [answer|e];
      cbn [fst snd env trace logged generated];
      (split; [rewrite ?requests_of_app; simpl; now rewrite ?app_nil_r|]);
      (split; [reflexivity|]).
    + eexists. rewrite <- app_assoc. split; [reflexivity|].
      right. split; [reflexivity|]. now eexists.
    + eexists. rewrite <- app_assoc. split; [reflexivity|].
      right. split; [reflexivity|]. now eexists.
    + exists []. split; [reflexivity|]. now left.
    + eexists. rewrite <- app_assoc. split; [reflexivity|].
      right. split; [reflexivity|]. now eexists.
  - cbn [snd trace logged]. split; [|reflexivity].
    rewrite requests_of_app. simpl. now rewrite app_nil_r.
Qed.

Lemma is_book_block book authors categories :
  is_book book ->
  py_getitem book (lit "authors") = Ok (VList (map VStr authors)) ->
  py_getitem book (lit "categories") = Ok (VList (map VStr categories)) ->
  exists t d,
    py_getitem book (lit "title") = Ok t
    /\ py_getitem book (lit "description") = Ok d
    /\ block book
       = Ok (lit "Book: " ++ py_str t ++ NL
             ++ lit "Authors: " ++ join (lit ", ") authors ++ NL
             ++ lit "Description: " ++ py_str d ++ NL
             ++ lit "Categories: " ++ join (lit ", ") categories ++ NL).
Proof.
  intros (t & a & d & c & p & n & ->) Ha Hc.
  change (Ok a = Ok (VList (map VStr authors))) in Ha.
  change (Ok c = Ok (VList (map VStr categories))) in Hc.
  injection Ha as ->. injection Hc as ->.
  exists t, d. split; [reflexivity|]. split; [reflexivity|].
  unfold block.
  change (py_getitem (VDict ?x) (lit "title")) with (Ok t).
  change (py_getitem (VDict ?x) (lit "authors"))
    with (Ok (VList (map VStr authors))).
  change (py_getitem (VDict ?x) (lit "description")) with (Ok d).
  change (py_getitem (VDict ?x) (lit "categories"))
    with (Ok (VList (map VStr categories))).
  cbn [bind ret result_monad]. rewrite !py_join_texts. reflexivity.
Qed.

(** X9. A book [search_books] builds can be rendered whenever its authors
    and its categories are lists of texts, which the defaults of
    [search_books] make them when the service leaves them out; the title
    and the description are rendered as [str] gives them, so that the block
    of an item without [volumeInfo] reads [Book: None] and has the three
    other lines empty. *)
Theorem block_of_searched_book :
  (forall item book authors categories,
     book_of_item item = Ok book ->
     py_getitem book (lit "authors") = Ok (VList (map VStr authors)) ->
     py_getitem book (lit "categories")
       = Ok (VList (map VStr categories)) ->
     exists t d,
       py_getitem book (lit "title") = Ok t
       /\ py_getitem book (lit "description") = Ok d
       /\ block book
          = Ok (lit "Book: " ++ py_str t ++ NL
                ++ lit "Authors: " ++ join (lit ", ") authors ++ NL
                ++ lit "Description: " ++ py_str d ++ NL
                ++ lit "Categories: " ++ join (lit ", ") categories ++ NL))
  /\ (forall item book,
        item_info item [] ->
        book_of_item item = Ok book ->
        block book
        = Ok (lit "Book: None" ++ NL ++ lit "Authors: " ++ NL
              ++ lit "Description: " ++ NL ++ lit "Categories: " ++ NL)).
Proof.
  split.
  - intros item book authors categories Hb.
    apply is_book_block. now apply book_of_item_is_book with item.
  - intros item book Hi Hb.
    rewrite (book_of_item_info _ _ Hi) in Hb. injection Hb as <-.
    reflexivity.
Qed.

(** X10. The defaults of [search_books] apply to a key that is absent, not
    to a key whose value is null: an item whose authors are null gives a
    book whose authors are [None], that book cannot be rendered, and
    [analyze_books] on any books that include it returns the apology
    without calling the generation service. *)
Theorem analyze_books_null_authors
    self item info books question st :
  item_info item info ->
  dict_lookup (lit "authors") info = Some VNone ->
  In (book_of_info info) books ->
  book_of_item item = Ok (book_of_info info)
  /\ py_getitem (book_of_info info) (lit "authors") = Ok VNone
  /\ (exists e, block (book_of_info info) = Raise e
                /\ exn_class_of e = TypeError)
  /\ exists e,
       analyze_books self books question st
       = (Ok apology,
          logged (lit "Error analyzing books with Cohere: " ++ exn_str e)
            st).
Proof.
  intros Hi Ha Hin.
  assert (Hget : py_getitem (book_of_info info) (lit "authors") = Ok VNone).
  { unfold book_of_info.
    change (py_getitem (VDict ?x) (lit "authors"))
      with (Ok (field_or (lit "authors") (VList []) info)).
    unfold field_or. now rewrite Ha. }
  assert (Hblock : exists e, block (book_of_info info) = Raise e
                             /\ exn_class_of e = TypeError).
  { unfold block.
    change (py_getitem (book_of_info info) (lit "title"))
      with (Ok (field_or (lit "title") VNone info)).
    rewrite Hget. cbn [bind ret result_monad].
    eexists. split; reflexivity. }
  split; [now apply book_of_item_info|]. split; [exact Hget|].
  split; [exact Hblock|].
  destruct Hblock as (e0 & He0 & _).
  assert (Hctx : exists e, context books = Raise e).
  { unfold context, comprehension.
    destruct (for_in_append_some_raise block books) with (acc := @nil str)
      as [e He].
    - apply Exists_exists. exists (book_of_info info). split; [exact Hin|].
      now exists e0.
    - exists e. now rewrite He. }
  destruct Hctx as [e He]. exists e.
  rewrite analyze_books_run. now rewrite He.
Qed.

(** ** [main] *)

(** The text of one recommendation (line 180). *)
Definition recommendation_line (book : pyval) : result str :=
  title <- py_getitem book (lit "title") ;;
  authors <- py_getitem book (lit "authors") ;;
  authors <- py_join (lit ", ") authors ;;
  ret (lit "- " ++ py_str title ++ lit " by " ++ authors).

(** The loop of lines 179 and 180: the texts it prints, one for each call
    of [print], and how it ends. *)
Fixpoint print_recommendations (recommendations : list pyval)
    : list str * result unit :=
  match recommendations with
  | [] => ([], Ok tt)
  | book :: rest =>
      match recommendation_line book with
      | Raise e => ([], Raise e)
      | Ok line =>
          let (lines, outcome) := print_recommendations rest in
          (line :: lines, outcome)
      end
  end.

(** [main], where [os.getenv] finds both keys and the standard output takes
    every text: the texts printed, one for each call of [print] and without
    the line feed [print] adds, how [main] ends, and the state it leaves.
    The defaults of [max_results] (5) and of [max_recommendations] (3) are
    written out. *)
Definition main (cohere_api_key google_books_api_key : str) (st : state)
    : list str * result unit * state :=
  let assistant := __init__ cohere_api_key google_books_api_key in
  match search_books assistant (lit "artificial intelligence ethics") 5 st
  with
  | (Raise e, st1) => ([], Raise e, st1)
  | (Ok books, st1) =>
      match
        analyze_books assistant books
          (lit "What are the main ethical concerns discussed in these books regarding AI?")
          st1
      with
      | (Raise e, st2) => ([], Raise e, st2)
      | (Ok analysis, st2) =>
          match
            recommend_similar_books assistant
              (lit "Superintelligence by Nick Bostrom") 3 st2
          with
          | (Raise e, st3) => ([], Raise e, st3)
          | (Ok recommendations, st3) =>
              let (lines, outcome) :=
                print_recommendations recommendations in
              ([lit "Analysis: " ++ analysis;
                NL ++ lit "Recommended Books:"] ++ lines,
               outcome, st3)
          end
      end
  end.

Lemma py_join_raises sep v e :
  py_join sep v = Raise e -> exn_class_of e = TypeError.
Proof.
  unfold py_join. destruct (py_iter v) as [items|e0].
  - cbn [bind ret result_monad].
    assert (H : forall acc,
              for_in (m := result) items
                (fun (acc : list str) item =>
                   match item with
                   | VStr s => Ok (acc ++ [s])
                   | _ =>
                       raise_of TypeError
                         (lit "sequence item "
                          ++ decimal (Z.of_nat (List.length acc))
                          ++ lit ": expected str instance, "
                          ++ type_name item ++ lit " found")
                   end) acc
              = Raise e -> exn_class_of e = TypeError).
    { induction items as [|item items IH]; intros acc; simpl.
      - discriminate.
      - destruct item; simpl; try (intros [= <-]; reflexivity). apply IH. }
    destruct (for_in (m := result) items _ []) as [parts|e1] eqn:Hf;
      [discriminate|].
    intros [= <-]. exact (H [] Hf).
  - intros [= <-]. reflexivity.
Qed.

Lemma recommendation_line_raises book e :
  is_book book -> recommendation_line book = Raise e ->
  exn_class_of e = TypeError.
Proof.
  intros (t & a & d & c & p & n & ->). unfold recommendation_line.
  change (py_getitem (VDict ?x) (lit "title")) with (Ok t).
  change (py_getitem (VDict ?x) (lit "authors")) with (Ok a).
  cbn [bind ret result_monad].
  destruct (py_join (lit ", ") a) as [authors|e0] eqn:Hj; [discriminate|].
  intros [= <-]. now apply py_join_raises with (1 := Hj).
Qed.

Lemma print_recommendations_lines recommendations :
  Forall is_book recommendations ->
  forall lines outcome,
    print_recommendations recommendations = (lines, outcome) ->
    (outcome = Ok tt ->
     Forall2 (fun book line => recommendation_line book = Ok line)
       recommendations lines)
    /\ (forall e, outcome = Raise e ->
          exn_class_of e = TypeError
          /\ (List.length lines < List.length recommendations)%nat).
Proof.
  induction 1 as [|book rest Hb _ IH]; intros lines outcome; simpl.
  - intros [= <- <-]. split; [constructor | discriminate].
  - destruct (recommendation_line book) as [line|e] eqn:Hl.
    + destruct (print_recommendations rest) as [lines' outcome'].
      intros [= <- <-].
      destruct (IH lines' outcome' eq_refl) as (Hok & Hraise).
      split.
      * intros Ho. constructor; [exact Hl | now apply Hok].
      * intros e He. destruct (Hraise e He) as [Hc Hlt].
        split; [exact Hc | simpl; lia].
    + intros [= <- <-]. split; [discriminate|].
      intros e' [= <-]. split; [|simpl; lia].
      now apply recommendation_line_raises with book.
Qed.

Lemma recommend_ok self book_title max_recommendations st :
  exists books st',
    recommend_similar_books self book_title max_recommendations st
    = (Ok books, st').
Proof.
  destruct (recommend_cases self book_title max_recommendations st)
    as [[st' H] | (first & rest & st1 & categories & cats & found & st2
                   & _ & _ & _ & _ & H)];
    rewrite H; do 2 eexists; reflexivity.
Qed.

Lemma analyze_books_ok self books question st :
  exists answer st',
    analyze_books self books question st = (Ok answer, st')
    /\ requests_of (trace st') = requests_of (trace st).
Proof.
  rewrite analyze_books_run.
  destruct (context books) as [ctx|e].
  - cbv zeta.
    destruct (cohere (cohere_client self)
                (generate_args (prompt ctx question)) (env st))
      as [[e | [|first others]] w];
      try destruct (py_strip (text first)) as [answer|e];
      do 2 eexists; (split; [reflexivity|]);
      cbn [trace logged generated]; rewrite ?requests_of_app; simpl;
      now rewrite ?app_nil_r.
  - do 2 eexists. split; [reflexivity|].
    cbn [trace logged]. rewrite requests_of_app. simpl.
    now rewrite app_nil_r.
Qed.

Lemma category_loop_requests self book_title max_recommendations cats :
  forall acc st,
    exists more,
      requests_of
        (trace (snd (for_in (m := M) cats
                       (similar_in_category self book_title
                          max_recommendations) acc st)))
      = requests_of (trace st) ++ more.
Proof.
  induction cats as [|category cats IH]; intros acc st.
  - exists []. simpl. now rewrite app_nil_r.
  - cbn [for_in bind M_monad].
    pose proof (search_books_requests self
                  (lit "subject:" ++ py_str category)
                  max_recommendations st) as Hr.
    destruct (search_books self (lit "subject:" ++ py_str category)
                max_recommendations st) as [[books|e] st1] eqn:Hs;
      cbn [snd] in Hr.
    + rewrite (similar_in_category_ok _ book_title _ acc _ _ _ _ Hs).
      destruct (IH (acc ++ without_title book_title books) st1)
        as [more Hmore].
      eexists. rewrite Hmore, Hr, <- app_assoc. reflexivity.
    + rewrite (similar_in_category_raise _ book_title _ acc _ _ _ _ Hs).
      cbn [snd]. eexists. exact Hr.
Qed.

Lemma recommend_first_request self book_title max_recommendations st :
  exists more,
    requests_of
      (trace (snd (recommend_similar_books self book_title
                     max_recommendations st)))
    = requests_of (trace st) ++ search_request self book_title 1 :: more.
Proof.
  pose proof (search_books_requests self book_title 1 st) as Hr.
  unfold recommend_similar_books, try_except, logger_error, Exception.
  cbn [bind ret M_monad].
  destruct (search_books self book_title 1 st)
    as [[[|first rest]|e] st1]; cbn [snd] in Hr.
  - exists []. cbn [snd]. exact Hr.
  - unfold lift.
    destruct (py_get first (lit "categories") (VList []))
      as [categories|e].
    + destruct (py_iter categories) as [cats|e].
      * cbv zeta.
        destruct (category_loop_requests self book_title
                    max_recommendations cats [] st1) as [more Hmore].
        destruct (for_in (m := M) cats
                    (similar_in_category self book_title max_recommendations)
                    [] st1) as [[acc|e] st2]; cbn [snd] in Hmore.
        -- exists more. cbn [snd]. rewrite Hmore, Hr.
           now rewrite <- app_assoc.
        -- exists more. cbn [snd trace].
           rewrite requests_of_app, Hmore, Hr. simpl.
           now rewrite app_nil_r, <- app_assoc.
      * exists []. cbn [snd trace].
        rewrite requests_of_app, Hr. simpl. now rewrite app_nil_r.
    + exists []. cbn [snd trace].
      rewrite requests_of_app, Hr. simpl. now rewrite app_nil_r.
  - exists []. cbn [snd trace].
    rewrite requests_of_app, Hr. simpl. now rewrite app_nil_r.
Qed.

(** X12. When [main] ends normally, what it has printed is made of the
    results of its three calls: the books of its search, with [maxResults]
    5, were analysed, in the state the search left; the analysis returned
    is printed after [Analysis: ]; the recommendations asked for in the
    state the analysis left are printed after the heading, one line for
    each in their order, each line being the title and the comma-joined
    authors of its book; and the state [main] leaves is the one the
    recommendation left. The lines are at most three, none of a book titled
    as the reference title asked for, and the requests sent begin with the
    search, followed by the lookup of the reference title with [maxResults]
    1, both with the key of the book service. *)
Theorem main_prints_analysis_and_recommendations
    cohere_api_key google_books_api_key st printed st' :
  main cohere_api_key google_books_api_key st = (printed, Ok tt, st') ->
  exists books st1 analysis st2 recommendations lines more,
    search_books (__init__ cohere_api_key google_books_api_key)
      (lit "artificial intelligence ethics") 5 st = (Ok books, st1)
    /\ analyze_books (__init__ cohere_api_key google_books_api_key) books
         (lit "What are the main ethical concerns discussed in these books regarding AI?")
         st1
       = (Ok analysis, st2)
    /\ recommend_similar_books
         (__init__ cohere_api_key google_books_api_key)
         (lit "Superintelligence by Nick Bostrom") 3 st2
       = (Ok recommendations, st')
    /\ printed
       = [lit "Analysis: " ++ analysis; NL ++ lit "Recommended Books:"]
         ++ lines
    /\ Forall2
         (fun book line =>
            exists t authors joined,
              py_getitem book (lit "title") = Ok t
              /\ py_getitem book (lit "authors") = Ok authors
              /\ py_join (lit ", ") authors = Ok joined
              /\ line = lit "- " ++ py_str t ++ lit " by " ++ joined)
         recommendations lines
    /\ (List.length lines <= 3)%nat
    /\ Forall (fun book =>
                 py_getitem book (lit "title")
                 <> Ok (VStr (lit "Superintelligence by Nick Bostrom")))
         recommendations
    /\ requests_of (trace st')
       = requests_of (trace st)
         ++ {| get_url := lit "https://www.googleapis.com/books/v1/volumes";
               param_q := lit "artificial intelligence ethics";
               param_key := google_books_api_key;
               param_maxResults := 5 |}
            :: {| get_url :=
                    lit "https://www.googleapis.com/books/v1/volumes";
                  param_q := lit "Superintelligence by Nick Bostrom";
                  param_key := google_books_api_key;
                  param_maxResults := 1 |}
            :: more.
Proof.
  unfold main. cbv zeta.
  pose proof (search_books_requests
                (__init__ cohere_api_key google_books_api_key)
                (lit "artificial intelligence ethics") 5 st) as Hr.
  destruct (search_books (__init__ cohere_api_key google_books_api_key)
              (lit "artificial intelligence ethics") 5 st)
    as [[books|e0] st1]; [|discriminate].
  cbn [snd] in Hr.
  match goal with
  | |- context [analyze_books ?a ?b ?q ?s] =>
      destruct (analyze_books_ok a b q s)
        as (analysis & st2 & Ha & Hra); rewrite Ha
  end.
  match goal with
  | |- context [recommend_similar_books ?a ?t ?m ?s] =>
      destruct (recommend_ok a t m s)
        as (recommendations & st3 & Hrec);
      pose proof (recommend_first_request a t m s) as [more Hmore];
      rewrite Hrec in Hmore |- *;
      pose proof (recommend_books a t m s _ _ Hrec)
        as (Hbooks & Hother & Hlen)
  end.
  cbn [snd] in Hmore.
  destruct (print_recommendations recommendations)
    as [lines outcome] eqn:Hprint.
  destruct (print_recommendations_lines _ Hbooks _ _ Hprint) as (Hok & _).
  intros [= <- -> <-]. specialize (Hok eq_refl).
  exists books, st1, analysis, st2, recommendations, lines, more.
  split; [reflexivity|]. split; [exact Ha|]. split; [exact Hrec|].
  split; [reflexivity|]. split; [|split; [|split]].
  - clear -Hok. induction Hok as [|book line recs lines Hline _ IH];
      constructor; [|exact IH].
    unfold recommendation_line in Hline.
    destruct (py_getitem book (lit "title")) as [t|e] eqn:Ht;
      [|discriminate].
    destruct (py_getitem book (lit "authors")) as [a|e] eqn:Ha;
      [|discriminate].
    cbn [bind ret result_monad] in Hline.
    destruct (py_join (lit ", ") a) as [joined|e] eqn:Hj; [|discriminate].
    injection Hline as <-. exists t, a, joined.
    split; [reflexivity|]. split; [reflexivity|].
    split; [exact Hj | reflexivity].
  - pose proof (Forall2_length Hok) as Hsame.
    assert (H03 : 0 <= 3) by lia. specialize (Hlen H03).
    apply Nat2Z.inj_le. change (Z.of_nat 3) with 3.
    eapply Z.le_trans; [|exact Hlen].
    apply Z.eq_le_incl. f_equal. symmetry. exact Hsame.
  - exact Hother.
  - rewrite Hmore, Hra, Hr. now rewrite <- app_assoc.
Qed.
End Assistant.

Arguments start {world} w.
Arguments trace {world} s.
Arguments env {world} s.
Arguments search_books {world} http self query max_results.
Arguments recommend_similar_books {world} http float_repr str_repr self
  book_title max_recommendations.
Arguments analyze_books {world} cohere float_repr str_repr self
  books question.
Arguments category_searches {world} http float_repr str_repr self
  max_recommendations.
Arguments requested {world} r w st.
Arguments logged {world} msg st.
Arguments generated {world} client g w st.

(** ** The operations in scripted worlds *)

Abbreviation script_search :=
  (search_books Script.http Script.assistant).
Abbreviation script_recommend :=
  (recommend_similar_books Script.http Script.float_repr Script.str_repr
     Script.assistant).
Abbreviation script_analyze :=
  (analyze_books Script.cohere Script.float_repr Script.str_repr
     Script.assistant).
Abbreviation script_book t := (book_of_info (Script.titled t [])).

(** The hypotheses of C4 at a response of two items, the second without
    [volumeInfo]. *)
Lemma search_books_success_witness :
  script_search (lit "dune") 5 (start Script.two_items)
  = (Ok (map book_of_info [Script.titled "Dune" ["Fiction"%string]; []]),
     requested (search_request Script.assistant (lit "dune") 5)
       (Script.searching []) (start Script.two_items))
  /\ List.length
       (map book_of_info [Script.titled "Dune" ["Fiction"%string]; []])
     = List.length
         [ VDict [(lit "volumeInfo",
                   VDict (Script.titled "Dune" ["Fiction"%string]))];
           VDict [] ].
Proof.
  eapply search_books_success.
  - reflexivity.
  - simpl. lia.
  - reflexivity.
  - apply items_present. reflexivity.
  - constructor; [apply item_with_info; reflexivity|].
    constructor; [apply item_without_info; reflexivity|].
    constructor.
Defined.

(** The hypotheses of C1 where the category holds Dune, a sequel and Dune in
    lower case: only the book titled exactly Dune is left out. *)
Lemma recommend_filters_exact_title_witness :
  fst (script_recommend (lit "Dune") 3 (start Script.dune))
  = Ok [script_book "Dune Messiah"; script_book "dune"].
Proof.
  edestruct (recommend_filters_exact_title _ Script.http Script.float_repr
               Script.str_repr Script.assistant (lit "Dune") 3
               (start Script.dune)) as [H _].
  - reflexivity.
  - reflexivity.
  - reflexivity.
  - eapply searched_next; [reflexivity | apply searched_none].
  - rewrite H. reflexivity.
Defined.

(** The hypotheses of C2 where the book found has two categories and each
    search finds three books: the three of the first category come back. *)
Lemma recommend_accumulates_then_truncates_witness :
  fst (script_recommend (lit "Dune") 3 (start Script.two_categories))
  = Ok [script_book "Hyperion"; script_book "Foundation";
        script_book "Solaris"].
Proof.
  edestruct (recommend_accumulates_then_truncates _ Script.http
               Script.float_repr Script.str_repr Script.assistant
               (lit "Dune") 3 (start Script.two_categories)) as [_ H].
  - reflexivity.
  - reflexivity.
  - reflexivity.
  - reflexivity.
  - reflexivity.
  - repeat constructor.
  - destruct (H eq_refl eq_refl eq_refl) as [Hrun _].
    rewrite Hrun. reflexivity.
Defined.

(** The hypotheses of C6: a lookup that finds nothing, and a lookup that
    finds a book without categories, after which the reply the script still
    holds has not been asked for. *)
Lemma recommend_without_reference_or_categories_witness :
  fst (script_recommend (lit "zzzznonexistentbook123") 3
         (start Script.nothing_found)) = Ok []
  /\ fst (script_recommend (lit "Dune") 3 (start Script.no_categories))
     = Ok []
  /\ Script.replies
       (env (snd (script_recommend (lit "Dune") 3
                    (start Script.no_categories))))
     = [Script.ok (Script.volumes [Script.titled "Hyperion" []])].
Proof.
  destruct (recommend_without_reference_or_categories _ Script.http
              Script.float_repr Script.str_repr Script.assistant
              (lit "zzzznonexistentbook123") 3 (start Script.nothing_found))
    as [Hnone _].
  destruct (recommend_without_reference_or_categories _ Script.http
              Script.float_repr Script.str_repr Script.assistant
              (lit "Dune") 3 (start Script.no_categories))
    as [_ Hfound].
  pose proof (Hnone _ eq_refl) as Hrun1.
  pose proof (Hfound _ _ _ eq_refl eq_refl) as Hrun2.
  rewrite Hrun1, Hrun2. repeat split.
Defined.



(** C5 at a service that returns one generation with a space before its
    text and a line feed after it: the answer is the text between them. *)
Lemma analyze_books_never_raises_witness :
  exists answer st',
    script_analyze [dict_of_record Script.dune_record]
      (lit "Which one first?") (start Script.generous)
    = (Ok answer, st')
    /\ answer = lit "Both are classics."
    /\ trimmed ([32%N] ++ lit "Both are classics." ++ NL) answer.
Proof.
  destruct (analyze_books_never_raises _ Script.cohere Script.float_repr
              Script.str_repr Script.assistant
              [dict_of_record Script.dune_record]
              (lit "Which one first?") (start Script.generous))
    as (answer & st' & Hrun
        & [(ctx & w & first & others & generated_text
            & _ & Hgen & Htext & Hanswer & Htrimmed & _)
          | (e & st1 & Hanswer & _)]).
  - exists answer, st'. split; [exact Hrun|].
    vm_compute in Hgen. injection Hgen as <- <- <-.
    injection Htext as <-. split; [exact Hanswer | exact Htrimmed].
  - exfalso. rewrite Hanswer in Hrun. vm_compute in Hrun. discriminate.
Defined.

(** C7 at two books of the data model and two services, one that answers
    and one that raises: the prompt sent is the same, and it holds the
    blocks of the two books between the head of the template and the
    question. *)
Lemma analyze_prompt_deterministic_witness :
  prompts_of
    (trace (snd (script_analyze
                   (map dict_of_record
                      [Script.dune_record; Script.untitled_record])
                   (lit "Which one first?") (start Script.generous))))
  = [lit "Based on the following books information:" ++ NL ++ NL
     ++ lit "Book: Dune" ++ NL
     ++ lit "Authors: Frank Herbert" ++ NL
     ++ lit "Description: A desert planet." ++ NL
     ++ lit "Categories: Fiction, Science" ++ NL
     ++ NL
     ++ lit "Book: None" ++ NL
     ++ lit "Authors: " ++ NL
     ++ lit "Description: " ++ NL
     ++ lit "Categories: " ++ NL
     ++ NL ++ NL
     ++ lit "Question: Which one first?" ++ NL ++ NL
     ++ lit "Please provide a detailed analysis of these books in relation to the question. Include relevant comparisons, themes, and insights."]
  /\ prompts_of
       (trace (snd (script_analyze
                      (map dict_of_record
                         [Script.dune_record; Script.untitled_record])
                      (lit "Which one first?") (start Script.silent))))
     = prompts_of
         (trace (snd (script_analyze
                        (map dict_of_record
                           [Script.dune_record; Script.untitled_record])
                        (lit "Which one first?") (start Script.generous)))).
Proof.
  destruct (analyze_prompt_deterministic _ Script.cohere Script.float_repr
              Script.str_repr
              (map dict_of_record
                 [Script.dune_record; Script.untitled_record])
              (lit "Which one first?"))
    as (_ & Hsame & Hrecords).
  split.
  - rewrite Hrecords. vm_compute. reflexivity.
  - apply Hsame. reflexivity.
Defined.

(** C9 at two books of the data model. *)
Lemma context_blank_line_between_blocks_witness :
  context Script.float_repr Script.str_repr
    [dict_of_record Script.dune_record;
     dict_of_record Script.untitled_record]
  = Ok (join (NL ++ NL)
          [four_lines Script.dune_record;
           four_lines Script.untitled_record] ++ NL).
Proof.
  apply (context_blank_line_between_blocks Script.float_repr
           Script.str_repr).
  - constructor; [reflexivity|]. constructor; [reflexivity|]. constructor.
  - discriminate.
Defined.

(** C10. A book whose title is absent is never removed by the filter of
    [recommend_similar_books], for [None] differs from every text; and
    there are responses of the service for which a book without title is
    among the books returned. *)
Theorem recommend_keeps_untitled :
  (forall book_title, py_ne VNone book_title = true)
  /\ (forall str_repr book_title books kept candidate,
        other_titles str_repr book_title books = Ok kept ->
        In candidate books ->
        py_getitem str_repr candidate (lit "title") = Ok VNone ->
        In candidate kept)
  /\ (exists returned candidate,
        fst (script_recommend (lit "Dune") 3 (start Script.untitled))
        = Ok returned
        /\ In candidate returned
        /\ py_getitem Script.str_repr candidate (lit "title") = Ok VNone).
Proof.
  split; [reflexivity|]. split.
  - intros str_repr book_title books kept candidate.
    apply other_titles_keeps_untitled.
  - eexists. eexists. split; [vm_compute; reflexivity|].
    split; [left; reflexivity | reflexivity].
Qed.

(** C10 at a search result of one titled and one untitled book. *)
Lemma recommend_keeps_untitled_witness :
  In (book_of_info [(lit "authors", VList [VStr (lit "Anonymous")])])
    (without_title (lit "Dune")
       [script_book "Dune";
        book_of_info [(lit "authors", VList [VStr (lit "Anonymous")])]]).
Proof.
  apply (proj1 (proj2 recommend_keeps_untitled) Script.str_repr (lit "Dune")
           [script_book "Dune";
            book_of_info [(lit "authors", VList [VStr (lit "Anonymous")])]]).
  - reflexivity.
  - right. left. reflexivity.
  - reflexivity.
Defined.

(** ** The operations on examples *)

(** The filter compares with the argument, not with the title of the book
    the lookup found: asked for the title with its author, the lookup finds
    Dune, and Dune stays among the books recommended. *)
Example recommend_compares_with_argument :
  fst (script_recommend (lit "Dune by Frank Herbert") 3 (start Script.dune))
  = Ok [script_book "Dune"; script_book "Dune Messiah"; script_book "dune"].
Proof. vm_compute. reflexivity. Qed.

(** Titles are compared code point by code point: neither the case nor the
    composition of an accented letter is normalised. *)
Example has_title_exact :
  has_title (lit "Dune") (script_book "Dune") = true
  /\ has_title (lit "Dune") (script_book "dune") = false
  /\ has_title [233%N]
       (book_of_info [(lit "title", VStr [101%N; 769%N])]) = false.
Proof. vm_compute. repeat split. Qed.

(** A title two categories share comes back twice. *)
Example recommend_keeps_duplicates :
  fst (script_recommend (lit "Dune") 6 (start Script.two_categories))
  = Ok [script_book "Hyperion"; script_book "Foundation";
        script_book "Solaris"; script_book "Hyperion";
        script_book "Cosmos"; script_book "Contact"].
Proof. vm_compute. reflexivity. Qed.

(** A status outside 400 to 599 does not raise: the books of a response
    with status 300 are returned. *)
Example search_books_status_300 :
  fst (script_search (lit "Dune") 5 (start Script.multiple_choices))
  = Ok [script_book "Dune"].
Proof. vm_compute. reflexivity. Qed.

(** A [RecursionError] raised while the body is decoded is not caught by
    [search_books], and is caught by [recommend_similar_books]. *)
Example search_books_too_deep :
  fst (script_search (lit "Dune") 5 (start Script.too_deep))
  = Raise {| exn_class_of := RecursionError;
             exn_str := lit "maximum recursion depth exceeded" |}
  /\ fst (script_recommend (lit "Dune") 3 (start Script.too_deep)) = Ok [].
Proof. vm_compute. split; reflexivity. Qed.

(** The text of the first generation comes back stripped. *)
Example analyze_books_strips :
  fst (script_analyze [dict_of_record Script.dune_record]
         (lit "Which one first?") (start Script.generous))
  = Ok (lit "Both are classics.").
Proof. vm_compute. reflexivity. Qed.

(** When the service raises, the apology comes back and the error is
    logged after the call. *)
Example analyze_books_apologises :
  script_analyze [] (lit "Which one first?") (start Script.silent)
  = (Ok apology,
     logged (lit "Error analyzing books with Cohere: " ++ lit "unavailable")
       (generated (cohere_client Script.assistant)
          (generate_args (prompt [] (lit "Which one first?")))
          Script.silent (start Script.silent))).
Proof. vm_compute. reflexivity. Qed.

(** A book that is not a dictionary makes the context fail, and the failure
    is turned into the apology. *)
Example analyze_books_malformed_book :
  fst (script_analyze [VNone] (lit "Which one first?")
         (start Script.generous))
  = Ok apology.
Proof. vm_compute. reflexivity. Qed.

(** The block of a book of the data model. *)
Example block_of_dune :
  block Script.float_repr Script.str_repr (dict_of_record Script.dune_record)
  = Ok (lit "Book: Dune" ++ NL
        ++ lit "Authors: Frank Herbert" ++ NL
        ++ lit "Description: A desert planet." ++ NL
        ++ lit "Categories: Fiction, Science" ++ NL).
Proof. vm_compute. reflexivity. Qed.

(** ** Further scripted worlds *)

Arguments main {world} http cohere float_repr str_repr
  cohere_api_key google_books_api_key st.

Module Scenario.

(** The lookup finds a book of two categories; the search of the first
    finds two books, the search of the second is answered with a JSON
    array. *)
Definition failing_category : Script.world :=
  Script.searching
    [ Script.ok
        (Script.volumes [Script.titled "Dune" ["Fiction"; "Science"]%string]);
      Script.ok
        (Script.volumes [Script.titled "Hyperion" [];
                         Script.titled "Solaris" []]);
      Script.ok (VList []) ].

(** The lookup finds a book whose categories are one text, not a list. *)
Definition text_categories : Script.world :=
  Script.searching
    [ Script.ok
        (Script.volumes
           [[(lit "title", VStr (lit "Dune"));
             (lit "categories", VStr (lit "AB"))]]);
      Script.ok (Script.volumes [Script.titled "Hyperion" []]);
      Script.ok (Script.volumes [Script.titled "Solaris" []]) ].

(** A [volumeInfo] whose authors are null. *)
Definition null_authors : list (str * pyval) :=
  [ (lit "title", VStr (lit "Dune")); (lit "authors", VNone) ].

(** A [volumeInfo] with a title and one author. *)
Definition by_author (t author : string) : list (str * pyval) :=
  [ (lit "title", VStr (lit t));
    (lit "authors", VList [VStr (lit author)]) ].

(** The three operations of [main] succeed: one book to analyse, one
    generation, a reference book of one category and one book in it. *)
Definition all_is_well : Script.world :=
  {| Script.replies :=
       [ Script.ok (Script.volumes [by_author "Moral Machines" "W. Wallach"]);
         Script.ok
           (Script.volumes
              [Script.titled "Superintelligence" ["Philosophy"]%string]);
         Script.ok (Script.volumes [by_author "Life 3.0" "Max Tegmark"]) ];
     Script.answers :=
       [ GenerateReturns
           [ {| text := VStr ([32%N] ++ lit "Privacy and bias." ++ NL) |} ]
       ] |}.

(** As [all_is_well], but the book recommended has null authors. *)
Definition unprintable : Script.world :=
  {| Script.replies :=
       [ Script.ok (Script.volumes [by_author "Moral Machines" "W. Wallach"]);
         Script.ok
           (Script.volumes
              [Script.titled "Superintelligence" ["Philosophy"]%string]);
         Script.ok (Script.volumes [null_authors]) ];
     Script.answers :=
       [ GenerateReturns
           [ {| text := VStr ([32%N] ++ lit "Privacy and bias." ++ NL) |} ]
       ] |}.

End Scenario.

Abbreviation script_main :=
  (main Script.http Script.cohere Script.float_repr Script.str_repr
     (lit "cohere-key") (lit "books-key")).

(** ** The further properties on scripted worlds *)

(** X2 at a response of two items. *)
Lemma search_books_books_have_six_keys_witness :
  Forall
    (fun book =>
       (exists d, book = VDict d /\ map fst d = book_keys)
       /\ forall key, In key book_keys ->
            exists v, py_getitem Script.str_repr book key = Ok v)
    (map book_of_info [Script.titled "Dune" ["Fiction"%string]; []]).
Proof.
  apply (search_books_books_have_six_keys _ Script.http Script.str_repr
           Script.assistant (lit "dune") 5 (start Script.two_items)
           _
           (requested (search_request Script.assistant (lit "dune") 5)
              (Script.searching []) (start Script.two_items))).
  reflexivity.
Defined.

(** X3 where the lookup is answered with a JSON array. *)
Lemma recommend_never_raises_witness :
  script_recommend (lit "Dune") 3 (start Script.array_body)
  = (Ok [],
     logged (lit "Error recommending similar books: "
             ++ lit "'list' object has no attribute 'get'")
       (requested (search_request Script.assistant (lit "Dune") 1)
          (Script.searching []) (start Script.array_body))).
Proof.
  apply (proj1 (proj2 (recommend_never_raises _ Script.http
                         Script.float_repr Script.str_repr Script.assistant
                         (lit "Dune") 3 (start Script.array_body)))
           {| exn_class_of := AttributeError;
              exn_str := lit "'list' object has no attribute 'get'" |}).
  reflexivity.
Defined.

(** X4 where the second of two category searches fails: the two books of
    the first category are lost. *)
Lemma recommend_discards_on_failure_witness :
  fst (script_recommend (lit "Dune") 3 (start Scenario.failing_category))
  = Ok []
  /\ fst (script_search (lit "subject:Fiction") 3
            (snd (script_search (lit "Dune") 1
                    (start Scenario.failing_category))))
     = Ok [script_book "Hyperion"; script_book "Solaris"].
Proof.
  split; [|reflexivity].
  erewrite (recommend_discards_on_failure _ Script.http Script.float_repr
              Script.str_repr Script.assistant (lit "Dune") 3
              (start Scenario.failing_category) _ _ _ _
              [VStr (lit "Fiction")] (VStr (lit "Science")) []).
  - reflexivity.
  - reflexivity.
  - reflexivity.
  - reflexivity.
  - eapply searched_next; [reflexivity | apply searched_none].
  - reflexivity.
Defined.

(** X5 at the books recommended for Dune. *)
Lemma recommend_returns_other_books_witness :
  Forall is_book [script_book "Dune Messiah"; script_book "dune"]
  /\ Forall (fun book =>
               py_getitem Script.str_repr book (lit "title")
               <> Ok (VStr (lit "Dune")))
       [script_book "Dune Messiah"; script_book "dune"]
  /\ (0 <= 3 ->
      Z.of_nat (List.length [script_book "Dune Messiah"; script_book "dune"])
      <= 3).
Proof.
  eapply (recommend_returns_other_books _ Script.http Script.float_repr
            Script.str_repr Script.assistant (lit "Dune") 3
            (start Script.dune)).
  reflexivity.
Defined.

(** X6 where the categories of the book found are the text AB: one search
    for A and one for B follow the lookup. *)
Lemma recommend_requests_witness :
  map param_q
    (requests_of
       (trace (snd (script_recommend (lit "Dune") 3
                      (start Scenario.text_categories)))))
  = [lit "Dune"; lit "subject:A"; lit "subject:B"].
Proof.
  edestruct (recommend_requests _ Script.http Script.float_repr
               Script.str_repr Script.assistant (lit "Dune") 3
               (start Scenario.text_categories)) as [H _].
  - reflexivity.
  - reflexivity.
  - reflexivity.
  - eapply searched_next; [reflexivity|].
    eapply searched_next; [reflexivity | apply searched_none].
  - rewrite H. reflexivity.
Defined.

(** X7 at a book without authors after a book that can be rendered. *)
Lemma context_fails_at_first_bad_book_witness :
  context Script.float_repr Script.str_repr
    ([dict_of_record Script.dune_record]
     ++ VDict [(lit "title", VStr (lit "Solaris"))] :: [VNone])
  = Raise {| exn_class_of := KeyError; exn_str := lit "'authors'" |}.
Proof.
  eapply (context_fails_at_first_bad_book Script.float_repr Script.str_repr).
  - constructor; [reflexivity | constructor].
  - reflexivity.
Defined.

(** X9 at an item without [volumeInfo]. *)
Lemma block_of_searched_book_witness :
  block Script.float_repr Script.str_repr (book_of_info [])
  = Ok (lit "Book: None" ++ NL ++ lit "Authors: " ++ NL
        ++ lit "Description: " ++ NL ++ lit "Categories: " ++ NL).
Proof.
  apply (proj2 (block_of_searched_book Script.float_repr Script.str_repr)
           (VDict [])).
  - apply item_without_info. reflexivity.
  - reflexivity.
Defined.

(** X10 at a book with null authors after one that can be rendered, with
    a generation service that would have answered. *)
Lemma analyze_books_null_authors_witness :
  exists e,
    script_analyze
      [dict_of_record Script.dune_record;
       book_of_info Scenario.null_authors]
      (lit "Which one first?") (start Script.generous)
    = (Ok apology,
       logged (lit "Error analyzing books with Cohere: " ++ exn_str e)
         (start Script.generous)).
Proof.
  apply (analyze_books_null_authors _ Script.cohere Script.float_repr
           Script.str_repr Script.assistant
           (VDict [(lit "volumeInfo", VDict Scenario.null_authors)])
           Scenario.null_authors).
  - apply item_with_info. reflexivity.
  - reflexivity.
  - right. left. reflexivity.
Defined.

(** X12 where the three operations succeed: the analysis printed is the
    stripped generation and the line printed is that of the one book
    recommended. *)
Lemma main_prints_analysis_and_recommendations_witness :
  exists books st1 analysis st2 recommendations lines more,
    script_search (lit "artificial intelligence ethics") 5
      (start Scenario.all_is_well) = (Ok books, st1)
    /\ script_analyze books
         (lit "What are the main ethical concerns discussed in these books regarding AI?")
         st1
       = (Ok analysis, st2)
    /\ script_recommend (lit "Superintelligence by Nick Bostrom") 3 st2
       = (Ok recommendations,
          snd (script_main (start Scenario.all_is_well)))
    /\ [lit "Analysis: Privacy and bias."; NL ++ lit "Recommended Books:";
        lit "- Life 3.0 by Max Tegmark"]
       = [lit "Analysis: " ++ analysis; NL ++ lit "Recommended Books:"]
         ++ lines
    /\ Forall2
         (fun book line =>
            exists t authors joined,
              py_getitem Script.str_repr book (lit "title") = Ok t
              /\ py_getitem Script.str_repr book (lit "authors") = Ok authors
              /\ py_join (lit ", ") authors = Ok joined
              /\ line
                 = lit "- " ++ py_str Script.float_repr Script.str_repr t
                   ++ lit " by " ++ joined)
         recommendations lines
    /\ (List.length lines <= 3)%nat
    /\ Forall (fun book =>
                 py_getitem Script.str_repr book (lit "title")
                 <> Ok (VStr (lit "Superintelligence by Nick Bostrom")))
         recommendations
    /\ requests_of (trace (snd (script_main (start Scenario.all_is_well))))
       = requests_of (trace (start Scenario.all_is_well))
         ++ {| get_url := lit "https://www.googleapis.com/books/v1/volumes";
               param_q := lit "artificial intelligence ethics";
               param_key := lit "books-key";
               param_maxResults := 5 |}
            :: {| get_url :=
                    lit "https://www.googleapis.com/books/v1/volumes";
                  param_q := lit "Superintelligence by Nick Bostrom";
                  param_key := lit "books-key";
                  param_maxResults := 1 |}
            :: more.
Proof.
  apply (main_prints_analysis_and_recommendations _ Script.http
           Script.cohere Script.float_repr Script.str_repr
           (lit "cohere-key") (lit "books-key")
           (start Scenario.all_is_well)).
  vm_compute. reflexivity.
Defined.

(** ** [main] on examples *)

(** What [main] prints when the three operations succeed. *)
Example main_prints :
  fst (script_main (start Scenario.all_is_well))
  = ([lit "Analysis: Privacy and bias.";
      NL ++ lit "Recommended Books:";
      lit "- Life 3.0 by Max Tegmark"],
     Ok tt).
Proof. vm_compute. reflexivity. Qed.

(** [main] fails before it prints when its first search is answered with a
    JSON array. *)
Example main_fails_on_array_body :
  fst (script_main (start Script.array_body))
  = ([],
     Raise {| exn_class_of := AttributeError;
              exn_str := lit "'list' object has no attribute 'get'" |}).
Proof. vm_compute. reflexivity. Qed.

(** [main] fails after the heading when the authors of a recommended book
    are null. *)
Example main_fails_while_printing :
  fst (script_main (start Scenario.unprintable))
  = ([lit "Analysis: Privacy and bias."; NL ++ lit "Recommended Books:"],
     Raise {| exn_class_of := TypeError;
              exn_str := lit "can only join an iterable" |}).
Proof. vm_compute. reflexivity. Qed.
